(** * AeonPay backend: ledger, vouchers, mandates, payment intents, idempotency

    A shallow embedding of the FastAPI/SQLAlchemy backend
    ([backend/routes/*.py], [backend/services/*.py], [backend/main.py],
    [backend/models.py], [backend/database.py]) and the properties of its
    money-moving core.

    Conventions of the embedding.
    - A table with a primary key that the routes look up and update
      (plans, vouchers, mandates) is a [gmap] from the primary key to the
      row; an append-only table (redemptions, executions, ledger entries,
      idempotent requests) and the transactions table (queried by its
      unique [intent_id] column) are lists in insertion order.  Inserting a
      row whose primary key (or unique column) is taken is the database's
      IntegrityError: the commit raises and nothing of it persists.
    - Money is the [Decimal(10, 2)] column counted in hundredths, an
      integer: 100.00 is [10000].  Conversions to [float] in response
      bodies are left out; the response carries the exact amount.
    - A [DateTime] is an integer timestamp.
    - What a request reads from outside the database (uuid4, the clock,
      the random module) is an [Env] given with the request.
    - Users and merchants are directories that the modelled routes only
      read: their ids are sets.  The routes that only read
      ([GET ...]) and the login route are left out. *)

From stdpp Require Import gmap strings list fin_maps pretty.
From Stdlib Require Import ZArith Lia.

Open Scope Z_scope.

(** ** Errors and results *)

(** [HTTPException(status_code, detail)] raised by a route, or the
    database's IntegrityError raised by [db.commit()]. *)
Inductive Error :=
| HTTPException (status_code : Z) (detail : string)
| IntegrityError.

Inductive Result (A : Type) :=
| Ok (a : A)
| Raise (e : Error).
Arguments Ok {A} a.
Arguments Raise {A} e.

(** ** The environment of one request *)

Record Env := {
  (** [str(uuid.uuid4())]: the value of the n-th call made while the
      request is served *)
  uuid4 : nat → string;
  (** [datetime.utcnow()] as read during the i-th leg of a redeem batch *)
  utcnow : nat → Z;
  (** [int(time.time())] *)
  time_time : Z;
  (** [random.randint(1000, 9999)] *)
  randint_1000_9999 : Z;
  (** [random.choice([True, True, True, False])] *)
  random_choice : bool;
}.

(** ** Rows ([models.py]) *)

Record Plan := {
  plan_name : string;
  plan_cap_per_head : Z;
  plan_window_start : Z;
  plan_window_end : Z;
  plan_merchant_whitelist : list string;
  plan_status : string;
  plan_created_by : string;
}.

Record PlanMember := {
  pm_id : string;
  pm_plan_id : string;
  pm_user_id : string;
  pm_state : string;
}.

Record Voucher := {
  v_plan_id : string;
  v_member_user_id : string;
  v_amount : Z;
  v_merchant_list : list string;
  v_expires_at : Z;
  v_state : string;
}.

Record Mandate := {
  m_plan_id : string;
  m_member_user_id : string;
  m_cap_amount : Z;
  m_valid_from : Z;
  m_valid_to : Z;
  m_state : string;
}.

Record VoucherRedemption := {
  vr_id : string;
  vr_voucher_id : string;
  vr_amount : Z;
  vr_merchant_id : option string;
}.

Record MandateExecution := {
  me_id : string;
  me_mandate_id : string;
  me_amount : Z;
  me_merchant_id : option string;
  me_status : string;
}.

Record Transaction := {
  t_id : string;
  t_intent_id : string;
  t_plan_id : string;
  t_merchant_id : string;
  t_amount : Z;
  t_mode : string;
  t_status : string;
  t_rrn_stub : option string;
}.

Record LedgerEntry := {
  le_id : string;
  le_txn_id : string;
  le_account : string;
  le_leg : string;
  le_amount : Z;
}.

(** ** Response bodies *)

Record RedeemedLeg := {
  rl_voucher_id : string;
  rl_amount : Z;
  rl_remaining : Z;
}.

Record FailedLeg := {
  fl_voucher_id : string;
  fl_reason : string;
}.

(** The [response_data] dict of each mutating route. *)
Inductive Response :=
| PlanCreated (plan : string * Plan) (members : list string)
| VouchersMinted (vouchers : list (string * Voucher))
| RedeemResult (redeemed : list RedeemedLeg) (failed : list FailedLeg)
               (total_redeemed total_failed : nat)
| MandatesCreated (mandates : list (string * Mandate))
| ExecuteResult (mandate_id : string) (amount : Z) (status : string)
                (remaining_cap : Z) (execution_id : string)
| IntentCreated (intent_id : string) (transaction : Transaction)
                (guardrail_required : bool)
| ConfirmResult (transaction_id : string) (status : string)
                (rrn_stub : option string).

(** The top-level keys of the dict. *)
Definition response_keys (r : Response) : list string :=
  match r with
  | PlanCreated _ _ => ["plan"; "members"]
  | VouchersMinted _ => ["vouchers"]
  | RedeemResult _ _ _ _ => ["result"]
  | MandatesCreated _ => ["mandates"]
  | ExecuteResult _ _ _ _ _ => ["result"]
  | IntentCreated _ _ _ => ["intent_id"; "transaction"; "guardrail_required"]
  | ConfirmResult _ _ _ => ["transaction_id"; "status"; "rrn_stub"]
  end.

Record IdempotentRequest := {
  ir_id : string;
  ir_idempotency_key : string;
  ir_response_data : Response;
}.

(** ** The database *)

Record DB := {
  users : gset string;
  merchants : gset string;
  plans : gmap string Plan;
  plan_members : list PlanMember;
  vouchers : gmap string Voucher;
  voucher_redemptions : list VoucherRedemption;
  mandates : gmap string Mandate;
  mandate_executions : list MandateExecution;
  transactions : list Transaction;
  ledger_entries : list LedgerEntry;
  idempotent_requests : list IdempotentRequest;
}.

Definition with_plans (ps : gmap string Plan) (pms : list PlanMember) (db : DB) : DB :=
  {| users := users db; merchants := merchants db;
     plans := ps; plan_members := pms;
     vouchers := vouchers db; voucher_redemptions := voucher_redemptions db;
     mandates := mandates db; mandate_executions := mandate_executions db;
     transactions := transactions db; ledger_entries := ledger_entries db;
     idempotent_requests := idempotent_requests db |}.

Definition with_vouchers (vs : gmap string Voucher) (rs : list VoucherRedemption)
    (db : DB) : DB :=
  {| users := users db; merchants := merchants db;
     plans := plans db; plan_members := plan_members db;
     vouchers := vs; voucher_redemptions := rs;
     mandates := mandates db; mandate_executions := mandate_executions db;
     transactions := transactions db; ledger_entries := ledger_entries db;
     idempotent_requests := idempotent_requests db |}.

Definition with_mandates (ms : gmap string Mandate) (es : list MandateExecution)
    (db : DB) : DB :=
  {| users := users db; merchants := merchants db;
     plans := plans db; plan_members := plan_members db;
     vouchers := vouchers db; voucher_redemptions := voucher_redemptions db;
     mandates := ms; mandate_executions := es;
     transactions := transactions db; ledger_entries := ledger_entries db;
     idempotent_requests := idempotent_requests db |}.

Definition with_transactions (ts : list Transaction) (ls : list LedgerEntry)
    (db : DB) : DB :=
  {| users := users db; merchants := merchants db;
     plans := plans db; plan_members := plan_members db;
     vouchers := vouchers db; voucher_redemptions := voucher_redemptions db;
     mandates := mandates db; mandate_executions := mandate_executions db;
     transactions := ts; ledger_entries := ls;
     idempotent_requests := idempotent_requests db |}.

Definition with_idempotent_requests (rs : list IdempotentRequest) (db : DB) : DB :=
  {| users := users db; merchants := merchants db;
     plans := plans db; plan_members := plan_members db;
     vouchers := vouchers db; voucher_redemptions := voucher_redemptions db;
     mandates := mandates db; mandate_executions := mandate_executions db;
     transactions := transactions db; ledger_entries := ledger_entries db;
     idempotent_requests := rs |}.

(** ** Inserting rows under a primary key *)

(** INSERT of [rows], one after the other, into a list table whose
    primary key is [key]; [None] is the IntegrityError of a taken key. *)
Fixpoint insert_rows {A} (key : A → string) (rows : list A) (t : list A)
    : option (list A) :=
  match rows with
  | [] => Some t
  | r :: rs =>
      if bool_decide (key r ∈ key <$> t) then None
      else insert_rows key rs (t ++ [r])
  end.

(** The same for a table kept as a map from the primary key. *)
Fixpoint insert_keyed {A} (rows : list (string * A)) (t : gmap string A)
    : option (gmap string A) :=
  match rows with
  | [] => Some t
  | (k, r) :: rs =>
      match t !! k with
      | Some _ => None
      | None => insert_keyed rs (<[k := r]> t)
      end
  end.

(** ** Python truthiness of request fields *)

Definition truthy_str (s : option string) : bool :=
  match s with
  | Some s => negb (bool_decide (s = ""))
  | None => false
  end.

Definition truthy_num (a : option Z) : bool :=
  match a with
  | Some a => negb (a =? 0)
  | None => false
  end.

(** ** Ledger Engine ([services/ledger.py]) *)

(** The two entries [create_ledger_entries] adds to the session; their ids
    are the next two uuid4 values of the request. *)
Definition create_ledger_entries (env : Env) (n : nat) (transaction_id : string)
    (amount : Z) (account_debit account_credit : string)
    : LedgerEntry * LedgerEntry :=
  let debit_entry :=
    {| le_id := uuid4 env n; le_txn_id := transaction_id;
       le_account := account_debit; le_leg := "debit"; le_amount := amount |} in
  let credit_entry :=
    {| le_id := uuid4 env (S n); le_txn_id := transaction_id;
       le_account := account_credit; le_leg := "credit"; le_amount := amount |} in
  (debit_entry, credit_entry).

(** [db.query(func.sum(LedgerEntry.amount)).filter(...).scalar()]: SQL's
    SUM is NULL over no rows. *)
Definition sql_sum (amounts : list Z) : option Z :=
  match amounts with
  | [] => None
  | _ => Some (foldr Z.add 0 amounts)
  end.

(** [x or Decimal('0')]: [None] and a zero sum are both falsy. *)
Definition or_zero (x : option Z) : Z :=
  match x with
  | Some z => if z =? 0 then 0 else z
  | None => 0
  end.

Definition leg_amounts (leg : string) (entries : list LedgerEntry) : list Z :=
  le_amount <$> filter (λ e, le_leg e = leg) entries.

Definition get_account_balance (db : DB) (account : string) : Z :=
  let of_account := filter (λ e, le_account e = account) (ledger_entries db) in
  let credits := or_zero (sql_sum (leg_amounts "credit" of_account)) in
  let debits := or_zero (sql_sum (leg_amounts "debit" of_account)) in
  credits - debits.

Definition verify_ledger_balance (db : DB) : bool :=
  let total_debits := or_zero (sql_sum (leg_amounts "debit" (ledger_entries db))) in
  let total_credits := or_zero (sql_sum (leg_amounts "credit" (ledger_entries db))) in
  bool_decide (total_debits = total_credits).

(** ** Idempotency Layer ([services/idempotency.py]) *)

(** [db.query(IdempotentRequest).filter(idempotency_key == key).first()] *)
Definition query_idempotent (key : string) (db : DB) : option IdempotentRequest :=
  List.find (λ r, bool_decide (ir_idempotency_key r = key)) (idempotent_requests db).

(** Truthiness of the stored dict: a dict is falsy when it has no key. *)
Definition truthy_response (r : Response) : bool :=
  match response_keys r with
  | [] => false
  | _ :: _ => true
  end.

Definition get_response (key : string) (db : DB) : option Response :=
  match query_idempotent key db with
  | Some request =>
      if truthy_response (ir_response_data request)
      then Some (ir_response_data request)
      else None
  | None => None
  end.

(** [store_response] runs in a session of its own and commits there; [n]
    is the number of uuid4 calls the request has made before. *)
Definition store_response (env : Env) (n : nat) (key : string)
    (response_data : Response) (db : DB) : Result unit * DB :=
  match query_idempotent key db with
  | Some _ => (Ok (), db)
  | None =>
      let request :=
        {| ir_id := uuid4 env n; ir_idempotency_key := key;
           ir_response_data := response_data |} in
      match insert_rows ir_id [request] (idempotent_requests db) with
      | Some rs => (Ok (), with_idempotent_requests rs db)
      | None => (Raise IntegrityError, db)
      end
  end.

Definition store_idempotent_response := store_response.

(** The tail shared by every mutating route:
    [if hasattr(request.state, 'idempotency_key'): store_idempotent_response(...)]
    and [return response_data].  [state_key] is [request.state]'s
    attribute, absent when the middleware did not set it. *)
Definition respond (env : Env) (n : nat) (state_key : option string)
    (response_data : Response) (db : DB) : Result Response * DB :=
  match state_key with
  | Some key =>
      match store_idempotent_response env n key response_data db with
      | (Ok _, db') => (Ok response_data, db')
      | (Raise e, db') => (Raise e, db')
      end
  | None => (Ok response_data, db)
  end.

(** ** Plans ([routes/plans.py]) *)

Record PlanCreate := {
  pc_name : string;
  pc_cap_per_head : Z;
  pc_window_start : Z;
  pc_window_end : Z;
  pc_merchant_whitelist : list string;
  pc_member_ids : list string;
}.

(** The member loop of [create_plan]; [n] counts the uuid4 calls so far. *)
Fixpoint plan_member_rows (env : Env) (us : gset string) (plan_id : string)
    (member_ids : list string) (n : nat) : list PlanMember :=
  match member_ids with
  | [] => []
  | member_id :: rest =>
      if bool_decide (member_id ∈ us)
      then {| pm_id := uuid4 env n; pm_plan_id := plan_id;
              pm_user_id := member_id; pm_state := "active" |}
           :: plan_member_rows env us plan_id rest (S n)
      else plan_member_rows env us plan_id rest n
  end.

Definition create_plan (env : Env) (state_key : option string)
    (current_user : string) (plan_data : PlanCreate) (db : DB)
    : Result Response * DB :=
  let plan_id := uuid4 env 0%nat in
  let plan :=
    {| plan_name := pc_name plan_data;
       plan_cap_per_head := pc_cap_per_head plan_data;
       plan_window_start := pc_window_start plan_data;
       plan_window_end := pc_window_end plan_data;
       plan_merchant_whitelist := pc_merchant_whitelist plan_data;
       plan_status := "active";
       plan_created_by := current_user |} in
  let member_rows :=
    plan_member_rows env (users db) plan_id (pc_member_ids plan_data) 1 in
  let creator_rows :=
    if bool_decide (current_user ∈ pc_member_ids plan_data) then []
    else [ {| pm_id := uuid4 env (S (length member_rows)); pm_plan_id := plan_id;
              pm_user_id := current_user; pm_state := "active" |} ] in
  let rows := member_rows ++ creator_rows in
  match insert_keyed [(plan_id, plan)] (plans db),
        insert_rows pm_id rows (plan_members db) with
  | Some ps, Some pms =>
      respond env (S (length rows)) state_key
        (PlanCreated (plan_id, plan) (pm_user_id <$> rows))
        (with_plans ps pms db)
  | _, _ => (Raise IntegrityError, db)
  end.

(** ** Voucher Engine ([routes/vouchers.py]) *)

Record VoucherCreate := {
  vc_plan_id : string;
  vc_member_user_ids : list string;
  vc_amount : Z;
  vc_merchant_list : list string;
  vc_expires_at : Z;
}.

(** The member loop of [mint_vouchers]: an unknown member id is passed
    over ([continue]), any other gets a voucher with the next uuid4. *)
Fixpoint mint_loop (env : Env) (us : gset string) (voucher_data : VoucherCreate)
    (member_ids : list string) (n : nat) : list (string * Voucher) :=
  match member_ids with
  | [] => []
  | member_id :: rest =>
      if bool_decide (member_id ∈ us)
      then (uuid4 env n,
            {| v_plan_id := vc_plan_id voucher_data;
               v_member_user_id := member_id;
               v_amount := vc_amount voucher_data;
               v_merchant_list := vc_merchant_list voucher_data;
               v_expires_at := vc_expires_at voucher_data;
               v_state := "active" |})
           :: mint_loop env us voucher_data rest (S n)
      else mint_loop env us voucher_data rest n
  end.

Definition mint_vouchers (env : Env) (state_key : option string)
    (current_user : string) (voucher_data : VoucherCreate) (db : DB)
    : Result Response * DB :=
  match plans db !! vc_plan_id voucher_data with
  | None => (Raise (HTTPException 404 "Plan not found"), db)
  | Some plan =>
      if bool_decide (plan_created_by plan ≠ current_user)
      then (Raise (HTTPException 403 "Only plan creator can mint vouchers"), db)
      else
        let vouchers_ :=
          mint_loop env (users db) voucher_data
            (vc_member_user_ids voucher_data) 0 in
        match insert_keyed vouchers_ (vouchers db) with
        | None => (Raise IntegrityError, db)
        | Some vs =>
            respond env (length vouchers_) state_key (VouchersMinted vouchers_)
              (with_vouchers vs (voucher_redemptions db) db)
        end
  end.

(** [SessionLocal = sessionmaker(autocommit=False, autoflush=False, ...)]
    in [database.py]. *)
Definition SessionLocal_autoflush : bool := false.

Record RedemptionData := {
  rd_voucher_ids : list string;
  rd_amounts : list Z;
  rd_merchant_id : option string;
}.

(** What the loop of [redeem_vouchers] carries from leg to leg: the
    session's modified [Voucher] objects (not yet flushed), the
    redemption rows added to the session, and the two result lists. *)
Record RedeemLoop := {
  dirty : gmap string Voucher;
  added : list VoucherRedemption;
  redeemed : list RedeemedLeg;
  failed : list FailedLeg;
}.

(** [db.query(Voucher).filter(Voucher.id == voucher_id,
    Voucher.state == "active").first()].  The filter is evaluated by the
    database: on the committed rows, or, when the session autoflushes, on
    the rows with the session's changes written out.  The object that
    comes back is the session's one for that primary key, with the
    attribute values the request has given it so far. *)
Definition query_active_voucher (autoflush : bool) (db : DB)
    (modified : gmap string Voucher) (voucher_id : string) : option Voucher :=
  let rows := if autoflush then modified ∪ vouchers db else vouchers db in
  match rows !! voucher_id with
  | Some row =>
      if bool_decide (v_state row = "active")
      then Some (default row (modified !! voucher_id))
      else None
  | None => None
  end.

Definition fail_leg (voucher_id reason : string) (st : RedeemLoop) : RedeemLoop :=
  {| dirty := dirty st; added := added st; redeemed := redeemed st;
     failed := failed st ++ [ {| fl_voucher_id := voucher_id; fl_reason := reason |} ] |}.

(** [voucher.amount -= amount_to_redeem] and
    [if voucher.amount <= 0: voucher.state = "redeemed"]. *)
Definition debit_voucher (voucher : Voucher) (amount_to_redeem : Z) : Voucher :=
  let amount := v_amount voucher - amount_to_redeem in
  {| v_plan_id := v_plan_id voucher;
     v_member_user_id := v_member_user_id voucher;
     v_amount := amount;
     v_merchant_list := v_merchant_list voucher;
     v_expires_at := v_expires_at voucher;
     v_state := if amount <=? 0 then "redeemed" else v_state voucher |}.

(** One iteration of the loop: leg [i] with its voucher id and
    [amounts[i]].  With exact amounts nothing in the [try] block raises,
    so the [except] branch is not taken. *)
Definition redeem_leg (autoflush : bool) (env : Env) (db : DB)
    (merchant_id : option string) (i : nat) (voucher_id : string)
    (amount_to_redeem : Z) (st : RedeemLoop) : RedeemLoop :=
  match query_active_voucher autoflush db (dirty st) voucher_id with
  | None => fail_leg voucher_id "Voucher not found or inactive" st
  | Some voucher =>
      if v_expires_at voucher <? utcnow env i
      then fail_leg voucher_id "Voucher expired" st
      else if amount_to_redeem >? v_amount voucher
      then fail_leg voucher_id "Insufficient voucher balance" st
      else
        let redemption :=
          {| vr_id := uuid4 env (length (added st)); vr_voucher_id := voucher_id;
             vr_amount := amount_to_redeem; vr_merchant_id := merchant_id |} in
        let voucher' := debit_voucher voucher amount_to_redeem in
        {| dirty := <[voucher_id := voucher']> (dirty st);
           added := added st ++ [redemption];
           redeemed := redeemed st ++
             [ {| rl_voucher_id := voucher_id; rl_amount := amount_to_redeem;
                  rl_remaining := v_amount voucher' |} ];
           failed := failed st |}
  end.

(** [for i, voucher_id in enumerate(voucher_ids)], from leg [i] on. *)
Fixpoint redeem_loop (autoflush : bool) (env : Env) (db : DB)
    (merchant_id : option string) (i : nat) (legs : list (string * Z))
    (st : RedeemLoop) : RedeemLoop :=
  match legs with
  | [] => st
  | (voucher_id, amount_to_redeem) :: rest =>
      redeem_loop autoflush env db merchant_id (S i) rest
        (redeem_leg autoflush env db merchant_id i voucher_id amount_to_redeem st)
  end.

Definition redeem_start : RedeemLoop :=
  {| dirty := ∅; added := []; redeemed := []; failed := [] |}.

(** [db.commit()] at the end of the batch: the added redemptions are
    inserted and the modified vouchers written back, together. *)
Definition redeem_commit (st : RedeemLoop) (db : DB) : option DB :=
  match insert_rows vr_id (added st) (voucher_redemptions db) with
  | Some rs => Some (with_vouchers (dirty st ∪ vouchers db) rs db)
  | None => None
  end.

Definition redeem_vouchers_with (autoflush : bool) (env : Env)
    (state_key : option string) (redemption_data : RedemptionData) (db : DB)
    : Result Response * DB :=
  let voucher_ids := rd_voucher_ids redemption_data in
  let amounts := rd_amounts redemption_data in
  if bool_decide (length voucher_ids ≠ length amounts)
  then (Raise (HTTPException 400 "Voucher IDs and amounts must match"), db)
  else
    let st :=
      redeem_loop autoflush env db (rd_merchant_id redemption_data) 0
        (zip voucher_ids amounts) redeem_start in
    match redeem_commit st db with
    | None => (Raise IntegrityError, db)
    | Some db' =>
        respond env (length (added st)) state_key
          (RedeemResult (redeemed st) (failed st)
             (length (redeemed st)) (length (failed st)))
          db'
    end.

Definition redeem_vouchers := redeem_vouchers_with SessionLocal_autoflush.

(** ** Mandate Engine ([routes/mandates.py]) *)

Record MandateCreate := {
  mc_plan_id : string;
  mc_member_user_ids : list string;
  mc_cap_amount : Z;
  mc_valid_from : Z;
  mc_valid_to : Z;
}.

Fixpoint create_loop (env : Env) (us : gset string) (mandate_data : MandateCreate)
    (member_ids : list string) (n : nat) : list (string * Mandate) :=
  match member_ids with
  | [] => []
  | member_id :: rest =>
      if bool_decide (member_id ∈ us)
      then (uuid4 env n,
            {| m_plan_id := mc_plan_id mandate_data;
               m_member_user_id := member_id;
               m_cap_amount := mc_cap_amount mandate_data;
               m_valid_from := mc_valid_from mandate_data;
               m_valid_to := mc_valid_to mandate_data;
               m_state := "active" |})
           :: create_loop env us mandate_data rest (S n)
      else create_loop env us mandate_data rest n
  end.

Definition create_mandates (env : Env) (state_key : option string)
    (current_user : string) (mandate_data : MandateCreate) (db : DB)
    : Result Response * DB :=
  match plans db !! mc_plan_id mandate_data with
  | None => (Raise (HTTPException 404 "Plan not found"), db)
  | Some plan =>
      if bool_decide (plan_created_by plan ≠ current_user)
      then (Raise (HTTPException 403 "Only plan creator can create mandates"), db)
      else
        let mandates_ :=
          create_loop env (users db) mandate_data
            (mc_member_user_ids mandate_data) 0 in
        match insert_keyed mandates_ (mandates db) with
        | None => (Raise IntegrityError, db)
        | Some ms =>
            respond env (length mandates_) state_key (MandatesCreated mandates_)
              (with_mandates ms (mandate_executions db) db)
        end
  end.

Record ExecutionData := {
  ed_mandate_id : option string;
  ed_amount : option Z;
  ed_merchant_id : option string;
}.

(** [db.query(Mandate).filter(Mandate.id == mandate_id,
    Mandate.state == "active").first()] *)
Definition query_active_mandate (db : DB) (mandate_id : string) : option Mandate :=
  match mandates db !! mandate_id with
  | Some row => if bool_decide (m_state row = "active") then Some row else None
  | None => None
  end.

(** [mandate.cap_amount -= amount] and
    [if mandate.cap_amount <= 0: mandate.state = "expired"]. *)
Definition debit_mandate (mandate : Mandate) (amount : Z) : Mandate :=
  let cap := m_cap_amount mandate - amount in
  {| m_plan_id := m_plan_id mandate;
     m_member_user_id := m_member_user_id mandate;
     m_cap_amount := cap;
     m_valid_from := m_valid_from mandate;
     m_valid_to := m_valid_to mandate;
     m_state := if cap <=? 0 then "expired" else m_state mandate |}.

Definition execute_mandate (env : Env) (state_key : option string)
    (execution_data : ExecutionData) (db : DB) : Result Response * DB :=
  if negb (truthy_str (ed_mandate_id execution_data))
     || negb (truthy_num (ed_amount execution_data))
  then (Raise (HTTPException 400 "Mandate ID and amount required"), db)
  else
    let mandate_id := default "" (ed_mandate_id execution_data) in
    let amount := default 0 (ed_amount execution_data) in
    match query_active_mandate db mandate_id with
    | None => (Raise (HTTPException 404 "Mandate not found or inactive"), db)
    | Some mandate =>
        if amount >? m_cap_amount mandate
        then (Raise (HTTPException 400 "Amount exceeds mandate cap"), db)
        else
          let success := random_choice env in
          let execution :=
            {| me_id := uuid4 env 0%nat; me_mandate_id := mandate_id;
               me_amount := amount;
               me_merchant_id := ed_merchant_id execution_data;
               me_status := if success then "success" else "failed" |} in
          let mandate' := if success then debit_mandate mandate amount else mandate in
          match insert_rows me_id [execution] (mandate_executions db) with
          | None => (Raise IntegrityError, db)
          | Some es =>
              respond env 1 state_key
                (ExecuteResult mandate_id amount (me_status execution)
                   (m_cap_amount mandate') (me_id execution))
                (with_mandates
                   (if success then <[mandate_id := mandate']> (mandates db)
                    else mandates db)
                   es db)
          end
    end.

(** ** Payment Intent / Confirmation Flow ([routes/payments.py]) *)

Record PaymentIntentCreate := {
  pi_amount : Z;
  pi_merchant_id : string;
  pi_plan_id : string;
  pi_mode : string;
}.

(** [f"intent_{int(time.time())}_{random.randint(1000, 9999)}"] *)
Definition new_intent_id (env : Env) : string :=
  "intent_" +:+ pretty (time_time env) +:+ "_" +:+ pretty (randint_1000_9999 env).

(** INSERT into [transactions]: [id] is the primary key and [intent_id]
    is declared [unique=True]. *)
Definition insert_transaction (t : Transaction) (ts : list Transaction)
    : option (list Transaction) :=
  if bool_decide (t_id t ∈ t_id <$> ts)
     || bool_decide (t_intent_id t ∈ t_intent_id <$> ts)
  then None
  else Some (ts ++ [t]).

Definition create_payment_intent (env : Env) (state_key : option string)
    (intent_data : PaymentIntentCreate) (db : DB) : Result Response * DB :=
  match plans db !! pi_plan_id intent_data with
  | None => (Raise (HTTPException 404 "Plan not found"), db)
  | Some _ =>
      if bool_decide (pi_merchant_id intent_data ∈ merchants db)
      then
        let intent_id := new_intent_id env in
        let transaction :=
          {| t_id := uuid4 env 0%nat; t_intent_id := intent_id;
             t_plan_id := pi_plan_id intent_data;
             t_merchant_id := pi_merchant_id intent_data;
             t_amount := pi_amount intent_data;
             t_mode := pi_mode intent_data;
             t_status := "pending"; t_rrn_stub := None |} in
        match insert_transaction transaction (transactions db) with
        | None => (Raise IntegrityError, db)
        | Some ts =>
            (* float(intent_data.amount) > 250.0, in hundredths *)
            let guardrail_required := 25000 <? pi_amount intent_data in
            respond env 1 state_key
              (IntentCreated intent_id transaction guardrail_required)
              (with_transactions ts (ledger_entries db) db)
        end
      else (Raise (HTTPException 404 "Merchant not found"), db)
  end.

Record PaymentConfirm := {
  cf_intent_id : string;
  cf_status : string;
  cf_rrn_stub : option string;
}.

(** [db.query(Transaction).filter(Transaction.intent_id == intent_id,
    Transaction.status == "pending").first()] *)
Definition query_pending_transaction (db : DB) (intent_id : string)
    : option Transaction :=
  List.find
    (λ t, bool_decide (t_intent_id t = intent_id)
          && bool_decide (t_status t = "pending"))
    (transactions db).

(** [transaction.status = ...; transaction.rrn_stub = ...] *)
Definition set_status (t : Transaction) (status : string) (rrn_stub : option string)
    : Transaction :=
  {| t_id := t_id t; t_intent_id := t_intent_id t; t_plan_id := t_plan_id t;
     t_merchant_id := t_merchant_id t; t_amount := t_amount t;
     t_mode := t_mode t; t_status := status; t_rrn_stub := rrn_stub |}.

(** UPDATE of the modified object, by primary key. *)
Definition update_transaction (t' : Transaction) (ts : list Transaction)
    : list Transaction :=
  (λ t, if bool_decide (t_id t = t_id t') then t' else t) <$> ts.

Definition confirm_payment (env : Env) (state_key : option string)
    (confirm_data : PaymentConfirm) (db : DB) : Result Response * DB :=
  match query_pending_transaction db (cf_intent_id confirm_data) with
  | None =>
      (Raise (HTTPException 404 "Transaction not found or already processed"), db)
  | Some transaction =>
      let transaction' :=
        set_status transaction (cf_status confirm_data) (cf_rrn_stub confirm_data) in
      let entries :=
        if bool_decide (cf_status confirm_data = "completed")
        then
          let '(debit_entry, credit_entry) :=
            create_ledger_entries env 0 (t_id transaction') (t_amount transaction')
              ("plan_" +:+ t_plan_id transaction')
              ("merchant_" +:+ t_merchant_id transaction') in
          [debit_entry; credit_entry]
        else [] in
      match insert_rows le_id entries (ledger_entries db) with
      | None => (Raise IntegrityError, db)
      | Some ls =>
          respond env (length entries) state_key
            (ConfirmResult (t_id transaction') (t_status transaction')
               (t_rrn_stub transaction'))
            (with_transactions (update_transaction transaction' (transactions db))
               ls db)
      end
  end.

(** ** The application ([main.py]) *)

(** The mutating routes, each with its request body. *)
Inductive Endpoint :=
| PostPlans (plan_data : PlanCreate)
| PostVouchersMint (voucher_data : VoucherCreate)
| PostVouchersRedeem (redemption_data : RedemptionData)
| PostMandatesCreate (mandate_data : MandateCreate)
| PostMandatesExecute (execution_data : ExecutionData)
| PostPaymentsIntent (intent_data : PaymentIntentCreate)
| PostPaymentsConfirm (confirm_data : PaymentConfirm).

Record Request := {
  (** the [idempotency-key] header *)
  req_idempotency_key : option string;
  (** the id of the authenticated user, from [get_current_user] *)
  req_current_user : string;
  req_endpoint : Endpoint;
}.

Definition request_method (req : Request) : string := "POST".

(** [call_next(request)]: the route the request is for; [state_key] is
    [request.state.idempotency_key] when the middleware has set it. *)
Definition call_next (env : Env) (state_key : option string) (req : Request)
    (db : DB) : Result Response * DB :=
  match req_endpoint req with
  | PostPlans plan_data =>
      create_plan env state_key (req_current_user req) plan_data db
  | PostVouchersMint voucher_data =>
      mint_vouchers env state_key (req_current_user req) voucher_data db
  | PostVouchersRedeem redemption_data =>
      redeem_vouchers env state_key redemption_data db
  | PostMandatesCreate mandate_data =>
      create_mandates env state_key (req_current_user req) mandate_data db
  | PostMandatesExecute execution_data =>
      execute_mandate env state_key execution_data db
  | PostPaymentsIntent intent_data =>
      create_payment_intent env state_key intent_data db
  | PostPaymentsConfirm confirm_data =>
      confirm_payment env state_key confirm_data db
  end.

Definition idempotency_middleware (env : Env) (req : Request) (db : DB)
    : Result Response * DB :=
  if truthy_str (req_idempotency_key req)
     && bool_decide (request_method req ∈ ["POST"; "PUT"; "PATCH"])
  then
    let idempotency_key := default "" (req_idempotency_key req) in
    match get_response idempotency_key db with
    | Some existing_response => (Ok existing_response, db)
    | None => call_next env (Some idempotency_key) req db
    end
  else call_next env None req db.

(** Serving a sequence of requests, each with its environment. *)
Fixpoint serve (reqs : list (Env * Request)) (db : DB) : DB :=
  match reqs with
  | [] => db
  | (env, req) :: rest => serve rest (snd (idempotency_middleware env req db))
  end.

(** ** Auxiliary notions used in the statements *)

(** Sum of the amounts of the entries of one leg. *)
Definition total (leg : string) (entries : list LedgerEntry) : Z :=
  foldr Z.add 0 (leg_amounts leg entries).

Definition balanced (entries : list LedgerEntry) : Prop :=
  total "debit" entries = total "credit" entries.



(** A mandate as [create_mandates] makes it with a positive cap, or as
    successful executions leave it. *)
Definition mandate_ok (m : Mandate) : Prop :=
  (m_state m = "active" ∧ 0 < m_cap_amount m)
  ∨ (m_state m = "expired" ∧ m_cap_amount m = 0).

(** No execute request of the sequence asks for a negative amount. *)
Definition no_negative_execute (req : Request) : Prop :=
  match req_endpoint req with
  | PostMandatesExecute d =>
      match ed_amount d with
      | Some a => 0 ≤ a
      | None => True
      end
  | _ => True
  end.

(** ** Example data *)

Definition demo_plan : Plan :=
  {| plan_name := "Birthday Party"; plan_cap_per_head := 30000;
     plan_window_start := 100; plan_window_end := 200;
     plan_merchant_whitelist := ["merchant-campus-1-0"];
     plan_status := "active"; plan_created_by := "user-1" |}.

(** A seeded database: users, merchants and a plan, nothing else. *)
Definition seeded_db : DB :=
  {| users := {["user-1"; "user-2"; "user-3"]};
     merchants := {["merchant-campus-1-0"]};
     plans := {["plan-demo-1" := demo_plan]};
     plan_members := [];
     vouchers := ∅; voucher_redemptions := [];
     mandates := ∅; mandate_executions := [];
     transactions := []; ledger_entries := [];
     idempotent_requests := [] |}.

(** An environment whose uuid4 values are [prefix] followed by the call
    number, with the clock at [now]. *)
Definition demo_env (prefix : string) (now : Z) (success : bool) : Env :=
  {| uuid4 := λ n, prefix +:+ pretty n;
     utcnow := λ _, now;
     time_time := now;
     randint_1000_9999 := 1234;
     random_choice := success |}.

Definition demo_mint (member_ids : list string) : VoucherCreate :=
  {| vc_plan_id := "plan-demo-1"; vc_member_user_ids := member_ids;
     vc_amount := 10000; vc_merchant_list := []; vc_expires_at := 2000 |}.

(** The seeded database after minting 100.00 to each of three members. *)
Definition minted_db : DB :=
  snd (mint_vouchers (demo_env "voucher-" 1000 true) None "user-1"
         (demo_mint ["user-1"; "user-2"; "user-3"]) seeded_db).

Definition demo_redeem (legs : list (string * Z)) : RedemptionData :=
  {| rd_voucher_ids := legs.*1; rd_amounts := legs.*2;
     rd_merchant_id := Some "merchant-campus-1-0" |}.

Definition demo_mandates (member_ids : list string) (cap : Z) : MandateCreate :=
  {| mc_plan_id := "plan-demo-1"; mc_member_user_ids := member_ids;
     mc_cap_amount := cap; mc_valid_from := 100; mc_valid_to := 2000 |}.

(** The seeded database after creating a mandate of 100.00 for one member. *)
Definition mandated_db : DB :=
  snd (create_mandates (demo_env "mandate-" 1000 true) None "user-1"
         (demo_mandates ["user-2"] 10000) seeded_db).

Definition demo_execute (mandate_id : string) (amount : Z) : ExecutionData :=
  {| ed_mandate_id := Some mandate_id; ed_amount := Some amount;
     ed_merchant_id := Some "merchant-campus-1-0" |}.

Definition demo_intent : PaymentIntentCreate :=
  {| pi_amount := 15000; pi_merchant_id := "merchant-campus-1-0";
     pi_plan_id := "plan-demo-1"; pi_mode := "vouchers" |}.

(** The seeded database after one payment intent. *)
Definition intent_db : DB :=
  snd (create_payment_intent (demo_env "txn-" 1700000000 true) None
         demo_intent seeded_db).

Definition demo_confirm (status : string) : PaymentConfirm :=
  {| cf_intent_id := "intent_1700000000_1234"; cf_status := status;
     cf_rrn_stub := None |}.

Definition demo_request (key : option string) (endpoint : Endpoint) : Request :=
  {| req_idempotency_key := key; req_current_user := "user-1";
     req_endpoint := endpoint |}.

(** Two successful executions, of 40.00 and of 60.00, on the mandate of
    [mandated_db]. *)
Definition demo_executions_1 : list (Env * Request) :=
  [ (demo_env "execution-a-" 1000 true,
     demo_request None (PostMandatesExecute (demo_execute "mandate-0" 4000))) ].

Definition demo_executions_2 : list (Env * Request) :=
  [ (demo_env "execution-b-" 1001 true,
     demo_request None (PostMandatesExecute (demo_execute "mandate-0" 6000))) ].

(** A payment intent followed by its confirmation as completed. *)
Definition demo_payment : list (Env * Request) :=
  [ (demo_env "txn-" 1700000000 true,
     demo_request None (PostPaymentsIntent demo_intent));
    (demo_env "entry-" 1700000050 true,
     demo_request None (PostPaymentsConfirm (demo_confirm "completed"))) ].

Definition demo_plan_create : PlanCreate :=
  {| pc_name := "Test Idempotent Plan"; pc_cap_per_head := 25000;
     pc_window_start := 100; pc_window_end := 200;
     pc_merchant_whitelist := ["merchant-campus-1-0"];
     pc_member_ids := ["user-2"; "user-3"] |}.

(** The response to creating [demo_plan_create] with uuid4 values
    "plan-0", "plan-1", ... *)
Definition demo_plan_created : Response :=
  PlanCreated
    ("plan-0",
     {| plan_name := "Test Idempotent Plan"; plan_cap_per_head := 25000;
        plan_window_start := 100; plan_window_end := 200;
        plan_merchant_whitelist := ["merchant-campus-1-0"];
        plan_status := "active"; plan_created_by := "user-1" |})
    ["user-2"; "user-3"; "user-1"].

(** What the primary key and the unique column of [transactions]
    guarantee. *)
Definition transactions_unique (db : DB) : Prop :=
  NoDup (t_id <$> transactions db) ∧ NoDup (t_intent_id <$> transactions db).

(** ** Read-only routes and queries *)

(** [get_transaction_ledger_entries] ([services/ledger.py]) *)
Definition get_transaction_ledger_entries (db : DB) (transaction_id : string)
    : list LedgerEntry :=
  filter (λ e, le_txn_id e = transaction_id) (ledger_entries db).

(** [get_plan_vouchers] ([routes/vouchers.py]).  The query has no ORDER
    BY; the rows come in the order in which the table lists them. *)
Definition get_plan_vouchers (db : DB) (plan_id : string)
    : Result (list (string * Voucher)) :=
  match plans db !! plan_id with
  | None => Raise (HTTPException 404 "Plan not found")
  | Some _ =>
      Ok (filter (λ v, v_plan_id v.2 = plan_id) (map_to_list (vouchers db)))
  end.

(** [get_plan_mandates] ([routes/mandates.py]) *)
Definition get_plan_mandates (db : DB) (plan_id : string)
    : Result (list (string * Mandate)) :=
  match plans db !! plan_id with
  | None => Raise (HTTPException 404 "Plan not found")
  | Some _ =>
      Ok (filter (λ m, m_plan_id m.2 = plan_id) (map_to_list (mandates db)))
  end.

(** [db.query(PlanMember).filter(plan_id == ..., user_id == ...,
    state == "active").first()] *)
Definition query_active_member (db : DB) (plan_id user_id : string)
    : option PlanMember :=
  List.find
    (λ row, bool_decide (pm_plan_id row = plan_id)
            && bool_decide (pm_user_id row = user_id)
            && bool_decide (pm_state row = "active"))
    (plan_members db).

(** [get_plan] ([routes/plans.py]) *)
Definition get_plan (db : DB) (current_user plan_id : string)
    : Result (string * Plan) :=
  match plans db !! plan_id with
  | None => Raise (HTTPException 404 "Plan not found")
  | Some plan =>
      let is_member := query_active_member db plan_id current_user in
      if bool_decide (is_member = None)
         && bool_decide (plan_created_by plan ≠ current_user)
      then Raise (HTTPException 403 "Access denied")
      else Ok (plan_id, plan)
  end.

(** [get_user_plans] ([routes/plans.py]): the plans the user created or
    is an active member of. *)
Definition get_user_plans (db : DB) (current_user : string)
    : list (string * Plan) :=
  let member_plan_ids :=
    pm_plan_id
      <$> filter (λ row, pm_user_id row = current_user ∧ pm_state row = "active")
            (plan_members db) in
  filter (λ p, plan_created_by p.2 = current_user ∨ p.1 ∈ member_plan_ids)
    (map_to_list (plans db)).

(** ** Further notions used in the statements *)

(** What the redemption rows say was redeemed from a voucher. *)
Definition redeemed_total (voucher_id : string) (rs : list VoucherRedemption) : Z :=
  foldr Z.add 0 (vr_amount <$> filter (λ r, vr_voucher_id r = voucher_id) rs).

(** What the execution rows say was debited from a mandate: the amounts
    of its executions with outcome success. *)
Definition executed_total (mandate_id : string) (es : list MandateExecution) : Z :=
  foldr Z.add 0
    (me_amount
       <$> filter (λ e, me_mandate_id e = mandate_id ∧ me_status e = "success") es).

(** A voucher whose state agrees with its balance. *)
Definition voucher_ok (v : Voucher) : Prop :=
  (v_state v = "active" ∧ 0 < v_amount v)
  ∨ (v_state v = "redeemed" ∧ v_amount v = 0).

(** A redeem request names no voucher twice. *)
Definition distinct_redeem (req : Request) : Prop :=
  match req_endpoint req with
  | PostVouchersRedeem d => NoDup (rd_voucher_ids d)
  | _ => True
  end.

(** The ledger entries of a transaction: none, or the debit of the plan
    account and the credit of the merchant account, both of the
    transaction's amount, of a transaction that is completed. *)
Definition ledger_pair_or_none (db : DB) (transaction_id : string) : Prop :=
  get_transaction_ledger_entries db transaction_id = []
  ∨ ∃ t, t ∈ transactions db ∧ t_id t = transaction_id
      ∧ t_status t = "completed"
      ∧ (λ e, (le_account e, le_leg e, le_amount e))
          <$> get_transaction_ledger_entries db transaction_id
        = [ ("plan_" +:+ t_plan_id t, "debit", t_amount t);
            ("merchant_" +:+ t_merchant_id t, "credit", t_amount t) ].

(** Every membership row belongs to a plan of the table, as the foreign
    key of [plan_members.plan_id] declares. *)
Definition members_reference_plans (db : DB) : Prop :=
  Forall (λ row, is_Some (plans db !! pm_plan_id row)) (plan_members db).

(** The intent id belongs to a transaction, and to none that is pending. *)
Definition intent_closed (db : DB) (intent_id : string) : Prop :=
  (intent_id ∈ t_intent_id <$> transactions db)
  ∧ query_pending_transaction db intent_id = None.

(** What the loop of a batch keeps true of the session: a modified
    voucher is one whose committed row is active, it differs from that
    row in balance and state only, and its balance plus what the added
    redemptions take from it is the committed balance. *)
Definition session_accounts (db : DB) (st : RedeemLoop) : Prop :=
  (∀ k d, dirty st !! k = Some d →
     ∃ row, vouchers db !! k = Some row ∧ v_state row = "active"
       ∧ v_plan_id d = v_plan_id row
       ∧ v_member_user_id d = v_member_user_id row
       ∧ v_merchant_list d = v_merchant_list row
       ∧ v_expires_at d = v_expires_at row
       ∧ v_amount d + redeemed_total k (added st) = v_amount row)
  ∧ (∀ k, dirty st !! k = None → redeemed_total k (added st) = 0).

(** * Properties *)

(** ** Inserting rows *)

Lemma insert_rows_Some {A} (key : A → string) rows (t t' : list A) :
  insert_rows key rows t = Some t' → t' = t ++ rows.
Proof.
  revert t. induction rows as [|r rows IH]; simpl; intros t H.
  - by simplify_eq; rewrite app_nil_r.
  - case_bool_decide; [done|]. apply IH in H. by rewrite H, <- app_assoc.
Qed.


(** ** The idempotent store touches its own table only *)

Lemma with_idempotent_requests_id db :
  with_idempotent_requests (idempotent_requests db) db = db.
Proof. by destruct db. Qed.

Lemma store_response_db env n key r db :
  ∃ rs, snd (store_response env n key r db) = with_idempotent_requests rs db.
Proof.
  unfold store_response. destruct (query_idempotent key db).
  - exists (idempotent_requests db). by rewrite with_idempotent_requests_id.
  - destruct (insert_rows _ _ _) as [rs|]; simpl; [by eexists|].
    exists (idempotent_requests db). by rewrite with_idempotent_requests_id.
Qed.

Lemma respond_db env n state_key r db :
  ∃ rs, snd (respond env n state_key r db) = with_idempotent_requests rs db.
Proof.
  unfold respond. destruct state_key as [key|]; simpl.
  - unfold store_idempotent_response.
    destruct (store_response_db env n key r db) as [rs Hrs].
    destruct (store_response env n key r db) as [[[]|e] db']; simpl in *; eauto.
  - exists (idempotent_requests db). by rewrite with_idempotent_requests_id.
Qed.

(** In a goal about a route's final [respond], replace the resulting
    database by the one before it with some table of idempotent requests. *)
Ltac respond_frame :=
  match goal with
  | |- context [respond ?e ?n ?k ?r ?d] =>
      let rs := fresh "rs" in destruct (respond_db e n k r d) as [rs ->]
  end.

(** ** C1: the ledger stays balanced *)

Lemma total_app leg es1 es2 :
  total leg (es1 ++ es2) = total leg es1 + total leg es2.
Proof.
  unfold total, leg_amounts. rewrite filter_app, fmap_app, foldr_app.
  generalize (le_amount <$> filter (λ e, le_leg e = leg) es1) as l.
  induction l as [|a l IH]; simpl; lia.
Qed.

Lemma or_zero_sql_sum amounts : or_zero (sql_sum amounts) = foldr Z.add 0 amounts.
Proof.
  destruct amounts as [|a l]; [done|]. unfold sql_sum, or_zero.
  destruct (Z.eqb_spec (foldr Z.add 0 (a :: l)) 0) as [->|]; done.
Qed.

Lemma verify_ledger_balance_spec db :
  verify_ledger_balance db = true ↔ balanced (ledger_entries db).
Proof.
  unfold verify_ledger_balance, balanced, total.
  rewrite !or_zero_sql_sum. apply bool_decide_eq_true.
Qed.

Lemma create_ledger_entries_balanced env n txn amount debit credit :
  let '(d, c) := create_ledger_entries env n txn amount debit credit in
  balanced [d; c].
Proof. reflexivity. Qed.

(** Every route leaves the ledger as it is or appends one balanced pair. *)
Lemma call_next_ledger env state_key req db :
  ∃ extra,
    ledger_entries (snd (call_next env state_key req db))
      = ledger_entries db ++ extra
    ∧ balanced extra.
Proof.
  assert (Hsame : ∀ n r db', ledger_entries db' = ledger_entries db →
    ∃ extra, ledger_entries (snd (respond env n state_key r db'))
      = ledger_entries db ++ extra ∧ balanced extra).
  { intros n r db' Hdb'. exists []. rewrite app_nil_r.
    destruct (respond_db env n state_key r db') as [rs ->]. by split. }
  assert (Hnone : ∃ extra, ledger_entries db = ledger_entries db ++ extra
                           ∧ balanced extra).
  { exists []. by rewrite app_nil_r. }
  unfold call_next. destruct (req_endpoint req) as [d|d|d|d|d|d|d].
  - unfold create_plan.
    destruct (insert_keyed _ _); [|done].
    destruct (insert_rows _ _ _); [|done]. by apply Hsame.
  - unfold mint_vouchers. destruct (plans db !! _); [|done].
    case_bool_decide; [done|]. destruct (insert_keyed _ _); [|done].
    by apply Hsame.
  - unfold redeem_vouchers, redeem_vouchers_with.
    case_bool_decide; [done|]. unfold redeem_commit.
    destruct (insert_rows _ _ _); [|done]. by apply Hsame.
  - unfold create_mandates. destruct (plans db !! _); [|done].
    case_bool_decide; [done|]. destruct (insert_keyed _ _); [|done].
    by apply Hsame.
  - unfold execute_mandate. destruct (_ || _); [done|].
    destruct (query_active_mandate _ _); [|done].
    destruct (_ >? _); [done|]. destruct (insert_rows _ _ _); [|done].
    by apply Hsame.
  - unfold create_payment_intent. destruct (plans db !! _); [|done].
    case_bool_decide; [|done]. destruct (insert_transaction _ _); [|done].
    by apply Hsame.
  - unfold confirm_payment.
    destruct (query_pending_transaction _ _) as [t|]; [|done].
    destruct (insert_rows _ _ _) as [ls|] eqn:Hins; [|done].
    apply insert_rows_Some in Hins.
    respond_frame.
    simpl. rewrite Hins. eexists; split; [done|].
    case_bool_decide; reflexivity.
Qed.

Lemma middleware_ledger env req db :
  ∃ extra,
    ledger_entries (snd (idempotency_middleware env req db))
      = ledger_entries db ++ extra
    ∧ balanced extra.
Proof.
  unfold idempotency_middleware. destruct (_ && _).
  - destruct (get_response _ _); [|apply call_next_ledger].
    exists []. by rewrite app_nil_r.
  - apply call_next_ledger.
Qed.

Lemma serve_balanced reqs db :
  balanced (ledger_entries db) → balanced (ledger_entries (serve reqs db)).
Proof.
  revert db. induction reqs as [|[env req] reqs IH]; simpl; intros db Hb; [done|].
  apply IH. destruct (middleware_ledger env req db) as (extra & -> & Hextra).
  unfold balanced in *. rewrite !total_app. lia.
Qed.

(** C1. Starting from a database whose ledger is empty (as the seeded
    database is), after any sequence of requests the sum of the debit
    entries equals the sum of the credit entries, and
    [verify_ledger_balance] returns true. *)
Theorem ledger_balanced_after_any_requests (db0 : DB) (reqs : list (Env * Request)) :
  ledger_entries db0 = [] →
  total "debit" (ledger_entries (serve reqs db0))
    = total "credit" (ledger_entries (serve reqs db0))
  ∧ verify_ledger_balance (serve reqs db0) = true.
Proof.
  intros H0.
  assert (Hb : balanced (ledger_entries (serve reqs db0))).
  { apply serve_balanced. by rewrite H0. }
  split; [exact Hb|]. by apply verify_ledger_balance_spec.
Qed.

(** ** Fresh uuid4 values *)





Lemma insert_keyed_lookup {A} (rows : list (string * A)) (t t' : gmap string A) k v :
  insert_keyed rows t = Some t' → t !! k = Some v → t' !! k = Some v.
Proof.
  revert t. induction rows as [|[k0 r] rows IH]; simpl; intros t Hins Hk.
  - by simplify_eq.
  - destruct (t !! k0) eqn:Hk0; [done|]. apply IH in Hins; [done|].
    rewrite lookup_insert_ne; [done|]. intros ->. congruence.
Qed.


(** ** The idempotent store succeeds with a fresh uuid4 *)


(** ** Redemption legs *)

Lemma debit_voucher_state voucher amount :
  amount ≤ v_amount voucher →
  0 ≤ v_amount (debit_voucher voucher amount)
  ∧ v_state (debit_voucher voucher amount)
    = if bool_decide (v_amount voucher - amount = 0) then "redeemed"
      else v_state voucher.
Proof.
  intros Hle. unfold debit_voucher; simpl. split; [lia|].
  case_bool_decide as H0.
  - rewrite H0. reflexivity.
  - destruct (Z.leb_spec (v_amount voucher - amount) 0); [lia|done].
Qed.

Lemma query_active_voucher_state autoflush db modified voucher_id voucher :
  query_active_voucher autoflush db modified voucher_id = Some voucher →
  v_state voucher = "active"
  ∨ (autoflush = false ∧ modified !! voucher_id = Some voucher).
Proof.
  unfold query_active_voucher. intros H.
  destruct autoflush.
  - destruct ((modified ∪ vouchers db) !! voucher_id) as [row|] eqn:Hrow; [|done].
    case_bool_decide as Hact; [|done]. left.
    destruct (modified !! voucher_id) as [v'|] eqn:Hm; simpl in H; simplify_eq.
    + erewrite lookup_union_Some_l in Hrow by done. by simplify_eq.
    + done.
  - destruct (vouchers db !! voucher_id) as [row|] eqn:Hrow; [|done].
    case_bool_decide as Hact; [|done].
    destruct (modified !! voucher_id) as [v'|] eqn:Hm; simpl in H; simplify_eq.
    + by right.
    + by left.
Qed.

(** The four ways a leg can go. *)
Lemma redeem_leg_cases autoflush env db merchant_id i voucher_id amount st :
  (query_active_voucher autoflush db (dirty st) voucher_id = None
   ∧ redeem_leg autoflush env db merchant_id i voucher_id amount st
     = fail_leg voucher_id "Voucher not found or inactive" st)
  ∨ (∃ voucher,
      query_active_voucher autoflush db (dirty st) voucher_id = Some voucher
      ∧ ((v_expires_at voucher < utcnow env i
          ∧ redeem_leg autoflush env db merchant_id i voucher_id amount st
            = fail_leg voucher_id "Voucher expired" st)
         ∨ (utcnow env i ≤ v_expires_at voucher
            ∧ v_amount voucher < amount
            ∧ redeem_leg autoflush env db merchant_id i voucher_id amount st
              = fail_leg voucher_id "Insufficient voucher balance" st)
         ∨ (utcnow env i ≤ v_expires_at voucher
            ∧ amount ≤ v_amount voucher
            ∧ redeem_leg autoflush env db merchant_id i voucher_id amount st
              = {| dirty := <[voucher_id := debit_voucher voucher amount]> (dirty st);
                   added := added st ++
                     [ {| vr_id := uuid4 env (length (added st));
                          vr_voucher_id := voucher_id; vr_amount := amount;
                          vr_merchant_id := merchant_id |} ];
                   redeemed := redeemed st ++
                     [ {| rl_voucher_id := voucher_id; rl_amount := amount;
                          rl_remaining := v_amount voucher - amount |} ];
                   failed := failed st |}))).
Proof.
  unfold redeem_leg.
  destruct (query_active_voucher _ _ _ _) as [voucher|]; [right|by left].
  exists voucher. split; [done|].
  destruct (Z.ltb_spec (v_expires_at voucher) (utcnow env i)); [by left|right].
  destruct (Z.gtb_spec amount (v_amount voucher)); [left|right];
    (split; [lia|]); (split; [lia|done]).
Qed.







Lemma fail_leg_inj voucher_id reason1 reason2 st :
  fail_leg voucher_id reason1 st = fail_leg voucher_id reason2 st →
  reason1 = reason2.
Proof.
  unfold fail_leg. intros H. injection H as H.
  apply app_inv_head in H. by simplify_eq.
Qed.

(** C8 (amended). A leg fails with "Voucher expired" exactly when the
    voucher is found active and its expiry is strictly before the current
    time; such a leg leaves the voucher as it was and adds no
    redemption.  At the expiry instant itself the leg is not rejected as
    expired. *)
Theorem redeem_leg_expired_iff (autoflush : bool) (env : Env) (db : DB)
    (merchant_id : option string) (i : nat) (voucher_id : string)
    (amount : Z) (st : RedeemLoop) :
  let st' := redeem_leg autoflush env db merchant_id i voucher_id amount st in
  (st' = fail_leg voucher_id "Voucher expired" st
   ↔ ∃ voucher,
       query_active_voucher autoflush db (dirty st) voucher_id = Some voucher
       ∧ v_expires_at voucher < utcnow env i)
  ∧ (st' = fail_leg voucher_id "Voucher expired" st →
     dirty st' = dirty st ∧ added st' = added st ∧ redeemed st' = redeemed st
     ∧ query_active_voucher autoflush db (dirty st') voucher_id
       = query_active_voucher autoflush db (dirty st) voucher_id).
Proof.
  intros st'. split; [|by intros ->].
  destruct (redeem_leg_cases autoflush env db merchant_id i voucher_id amount st)
    as [[Hq Hst']|(voucher & Hq & [[Hexp Hst']|[(Hexp & _ & Hst')|(Hexp & _ & Hst')]])];
    fold st' in Hst'; rewrite Hst'; split.
  - intros H. by apply fail_leg_inj in H.
  - intros (v & Hv & _). congruence.
  - eauto.
  - done.
  - intros H. by apply fail_leg_inj in H.
  - intros (v & Hv & ?). simplify_eq. lia.
  - unfold fail_leg. intros H. injection H as _ _ H.
    apply (f_equal length) in H. rewrite length_app in H. simpl in H. lia.
  - intros (v & Hv & ?). simplify_eq. lia.
Qed.

(** The counterexample to C8 as stated: at the expiry instant the leg on
    an active voucher is redeemed, not rejected. *)
Lemma redeem_at_expiry_instant :
  v_expires_at <$> vouchers minted_db !! "voucher-0" = Some 2000
  ∧ utcnow (demo_env "redemption-" 2000 true) 0 = 2000
  ∧ fst (redeem_vouchers (demo_env "redemption-" 2000 true) None
           (demo_redeem [("voucher-0", 2500)]) minted_db)
    = Ok (RedeemResult
            [ {| rl_voucher_id := "voucher-0"; rl_amount := 2500;
                 rl_remaining := 7500 |} ]
            [] 1 0).
Proof. vm_compute. done. Qed.



(** ** Mandate execution *)

Lemma query_active_mandate_None db mandate_id :
  query_active_mandate db mandate_id = None
  ↔ mandates db !! mandate_id = None
    ∨ ∃ m, mandates db !! mandate_id = Some m ∧ m_state m ≠ "active".
Proof.
  unfold query_active_mandate.
  destruct (mandates db !! mandate_id) as [m|]; [|by split; [left|]].
  case_bool_decide as Hact; split; try done.
  - intros [?|(m' & ? & ?)]; by simplify_eq.
  - intros _. right. by exists m.
Qed.

Lemma query_active_mandate_Some db mandate_id m :
  query_active_mandate db mandate_id = Some m
  ↔ mandates db !! mandate_id = Some m ∧ m_state m = "active".
Proof.
  unfold query_active_mandate.
  destruct (mandates db !! mandate_id) as [m'|]; [|by split; [|intros []]].
  case_bool_decide as Hact; split.
  - intros ?. by simplify_eq.
  - intros [? ?]. by simplify_eq.
  - done.
  - intros [? ?]. by simplify_eq.
Qed.

Lemma debit_mandate_state mandate amount :
  amount ≤ m_cap_amount mandate →
  m_state (debit_mandate mandate amount)
  = if bool_decide (m_cap_amount mandate - amount = 0) then "expired"
    else m_state mandate.
Proof.
  intros Hle. unfold debit_mandate; simpl. case_bool_decide as H0.
  - by rewrite H0.
  - destruct (Z.leb_spec (m_cap_amount mandate - amount) 0); [lia|done].
Qed.




(** ** Mandates over a sequence of requests *)

(** One execute call, seen from a mandate that is in order. *)
Lemma execute_mandate_step env state_key d db mandate_id m :
  mandates db !! mandate_id = Some m → mandate_ok m →
  (∀ a, ed_amount d = Some a → 0 ≤ a) →
  ∃ m', mandates (snd (execute_mandate env state_key d db)) !! mandate_id = Some m'
        ∧ m_cap_amount m' ≤ m_cap_amount m
        ∧ mandate_ok m'
        ∧ (m_cap_amount m = 0 → m' = m).
Proof.
  intros Hm Hok Hpos.
  assert (Hsame : ∃ m', mandates db !! mandate_id = Some m'
            ∧ m_cap_amount m' ≤ m_cap_amount m ∧ mandate_ok m'
            ∧ (m_cap_amount m = 0 → m' = m)).
  { exists m. split; [done|]. split; [lia|done]. }
  unfold execute_mandate.
  destruct (ed_amount d) as [amount|] eqn:Hamt; simpl;
    [|by rewrite orb_true_r].
  destruct (negb (truthy_str (ed_mandate_id d))); [done|]. simpl.
  destruct (Z.eqb_spec amount 0) as [|Hnz]; [done|]. simpl.
  specialize (Hpos amount eq_refl).
  destruct (query_active_mandate db _) as [mandate|] eqn:Hq; [|done].
  apply query_active_mandate_Some in Hq as [Hmandate Hact].
  destruct (Z.gtb_spec amount (m_cap_amount mandate)) as [|Hle]; [done|].
  case_bool_decide; [done|]. respond_frame. simpl.
  destruct (random_choice env); [|done].
  destruct (decide (default "" (ed_mandate_id d) = mandate_id)) as [Heq|Hneq].
  - rewrite Heq in *. rewrite lookup_insert_eq. simplify_eq.
    exists (debit_mandate m amount). split; [done|].
    pose proof (debit_mandate_state m amount Hle) as Hstate.
    destruct Hok as [[_ Hcap]|[Hexp _]]; [|congruence].
    split; [simpl; lia|]. split; [|lia].
    unfold mandate_ok. rewrite Hstate. simpl.
    case_bool_decide; [right; split; [done|lia]|left; split; [done|lia]].
  - by rewrite lookup_insert_ne.
Qed.

(** A mandate that is in order stays so under any request, and its cap
    does not grow, as long as no execute request is negative. *)
Lemma middleware_mandate_step env req db mandate_id m :
  mandates db !! mandate_id = Some m → mandate_ok m →
  no_negative_execute req →
  ∃ m', mandates (snd (idempotency_middleware env req db)) !! mandate_id = Some m'
        ∧ m_cap_amount m' ≤ m_cap_amount m
        ∧ mandate_ok m'
        ∧ (m_cap_amount m = 0 → m' = m).
Proof.
  intros Hm Hok Hpos.
  assert (Hsame : ∃ m', mandates db !! mandate_id = Some m'
            ∧ m_cap_amount m' ≤ m_cap_amount m ∧ mandate_ok m'
            ∧ (m_cap_amount m = 0 → m' = m)).
  { exists m. split; [done|]. split; [lia|done]. }
  assert (Hroute : ∀ state_key,
    ∃ m', mandates (snd (call_next env state_key req db)) !! mandate_id = Some m'
          ∧ m_cap_amount m' ≤ m_cap_amount m ∧ mandate_ok m'
          ∧ (m_cap_amount m = 0 → m' = m)).
  { intros state_key. unfold call_next, no_negative_execute in *.
    destruct (req_endpoint req) as [d|d|d|d|d|d|d].
    - unfold create_plan. destruct (insert_keyed _ _); [|done].
      destruct (insert_rows _ _ _); [|done]. by respond_frame.
    - unfold mint_vouchers. destruct (plans db !! _); [|done].
      case_bool_decide; [done|]. destruct (insert_keyed _ _); [|done].
      by respond_frame.
    - unfold redeem_vouchers, redeem_vouchers_with.
      case_bool_decide; [done|]. unfold redeem_commit.
      destruct (insert_rows _ _ _); [|done]. by respond_frame.
    - unfold create_mandates. destruct (plans db !! _); [|done].
      case_bool_decide; [done|].
      destruct (insert_keyed _ _) as [ms|] eqn:Hins; [|done].
      respond_frame. simpl. exists m.
      split; [by eapply insert_keyed_lookup|]. split; [lia|done].
    - apply execute_mandate_step; [done..|].
      intros a Ha. by rewrite Ha in Hpos.
    - unfold create_payment_intent. destruct (plans db !! _); [|done].
      case_bool_decide; [|done]. destruct (insert_transaction _ _); [|done].
      by respond_frame.
    - unfold confirm_payment.
      destruct (query_pending_transaction _ _); [|done].
      destruct (insert_rows _ _ _); [|done]. by respond_frame. }
  unfold idempotency_middleware. destruct (_ && _); [|apply Hroute].
  destruct (get_response _ _); [done|apply Hroute].
Qed.

Lemma serve_app reqs1 reqs2 db :
  serve (reqs1 ++ reqs2) db = serve reqs2 (serve reqs1 db).
Proof.
  revert db. induction reqs1 as [|[env req] reqs1 IH]; simpl; intros db; [done|].
  apply IH.
Qed.

Lemma serve_mandate reqs db mandate_id m :
  mandates db !! mandate_id = Some m → mandate_ok m →
  Forall (λ er, no_negative_execute er.2) reqs →
  ∃ m', mandates (serve reqs db) !! mandate_id = Some m'
        ∧ m_cap_amount m' ≤ m_cap_amount m
        ∧ mandate_ok m'
        ∧ (m_cap_amount m = 0 → m' = m).
Proof.
  revert db m. induction reqs as [|[env req] reqs IH]; simpl; intros db m Hm Hok Hpos.
  - exists m. split; [done|]. split; [lia|done].
  - apply Forall_cons in Hpos as [Hreq Hpos].
    destruct (middleware_mandate_step env req db mandate_id m Hm Hok Hreq)
      as (m1 & Hm1 & Hle1 & Hok1 & Hz1).
    destruct (IH _ m1 Hm1 Hok1 Hpos) as (m2 & Hm2 & Hle2 & Hok2 & Hz2).
    exists m2. split; [done|]. split; [lia|]. split; [done|].
    intros H0. rewrite Hz2; [by apply Hz1|]. by rewrite (Hz1 H0).
Qed.

Lemma mandate_ok_nonneg m : mandate_ok m → 0 ≤ m_cap_amount m.
Proof. intros [[_ ?]|[_ ?]]; lia. Qed.

Lemma mandate_ok_expired m :
  mandate_ok m → (m_state m = "expired" ↔ m_cap_amount m = 0).
Proof.
  intros [[Hs Hc]|[Hs Hc]]; split; intros H; try done; try lia.
  rewrite Hs in H. discriminate H.
Qed.

Lemma mandate_ok_active m :
  mandate_ok m → (m_state m = "active" ↔ 0 < m_cap_amount m).
Proof.
  intros [[Hs Hc]|[Hs Hc]]; split; intros H; try done; try lia.
  rewrite Hs in H. discriminate H.
Qed.

(** C5 (amended). For a mandate that is active with a positive cap, and
    any sequence of requests none of which executes a negative amount:
    the remaining cap never grows from one point of the sequence to a
    later one, never becomes negative, and the mandate is expired exactly
    when its cap is 0 (active exactly when it is positive); once the cap
    is 0 the mandate does not change any more and every execute call on
    it is turned away. *)
Theorem mandate_cap_monotone (db : DB) (mandate_id : string) (m : Mandate)
    (reqs1 reqs2 : list (Env * Request)) :
  mandates db !! mandate_id = Some m →
  m_state m = "active" → 0 < m_cap_amount m →
  Forall (λ er, no_negative_execute er.2) (reqs1 ++ reqs2) →
  ∃ m1 m2,
    mandates (serve reqs1 db) !! mandate_id = Some m1
    ∧ mandates (serve (reqs1 ++ reqs2) db) !! mandate_id = Some m2
    ∧ m_cap_amount m2 ≤ m_cap_amount m1 ≤ m_cap_amount m
    ∧ 0 ≤ m_cap_amount m2
    ∧ (m_state m2 = "expired" ↔ m_cap_amount m2 = 0)
    ∧ (m_state m2 = "active" ↔ 0 < m_cap_amount m2)
    ∧ (m_cap_amount m1 = 0 → m2 = m1)
    ∧ (m_cap_amount m2 = 0 →
       ∀ env state_key d, ed_mandate_id d = Some mandate_id →
         ∃ e, execute_mandate env state_key d (serve (reqs1 ++ reqs2) db)
              = (Raise e, serve (reqs1 ++ reqs2) db)).
Proof.
  intros Hm Hact Hcap Hpos. apply Forall_app in Hpos as [Hpos1 Hpos2].
  assert (Hok : mandate_ok m) by (by left).
  destruct (serve_mandate reqs1 db mandate_id m Hm Hok Hpos1)
    as (m1 & Hm1 & Hle1 & Hok1 & _).
  destruct (serve_mandate reqs2 (serve reqs1 db) mandate_id m1 Hm1 Hok1 Hpos2)
    as (m2 & Hm2 & Hle2 & Hok2 & Hz2).
  rewrite <- serve_app in Hm2.
  exists m1, m2. split; [done|]. split; [done|]. split; [lia|].
  split; [by apply mandate_ok_nonneg|].
  split; [by apply mandate_ok_expired|].
  split; [by apply mandate_ok_active|].
  split; [done|].
  intros H0 env state_key d Hd. unfold execute_mandate.
  destruct (_ || _); [by eexists|]. rewrite Hd. simpl.
  assert (Hq : query_active_mandate (serve (reqs1 ++ reqs2) db) mandate_id = None).
  { apply query_active_mandate_None. right. exists m2. split; [done|].
    apply mandate_ok_expired in H0; [|done]. rewrite H0. done. }
  rewrite Hq. by eexists.
Qed.

Lemma mandate_cap_monotone_witness :
  ∃ m1 m2,
    mandates (serve demo_executions_1 mandated_db) !! "mandate-0" = Some m1
    ∧ mandates (serve (demo_executions_1 ++ demo_executions_2) mandated_db)
        !! "mandate-0" = Some m2
    ∧ m_cap_amount m2 ≤ m_cap_amount m1 ≤ 10000
    ∧ (m_state m2 = "expired" ↔ m_cap_amount m2 = 0).
Proof.
  destruct (mandate_cap_monotone mandated_db "mandate-0"
              {| m_plan_id := "plan-demo-1"; m_member_user_id := "user-2";
                 m_cap_amount := 10000; m_valid_from := 100;
                 m_valid_to := 2000; m_state := "active" |}
              demo_executions_1 demo_executions_2)
    as (m1 & m2 & H1 & H2 & Hle & _ & Hexp & _).
  - vm_compute. reflexivity.
  - reflexivity.
  - simpl. lia.
  - apply Forall_cons. split; [unfold no_negative_execute; simpl; lia|].
    apply Forall_cons. split; [unfold no_negative_execute; simpl; lia|].
    apply Forall_nil_2.
  - exists m1, m2. split; [exact H1|]. split; [exact H2|].
    split; [exact Hle|exact Hexp].
Defined.

(** The counterexample to C5 as stated: a successful execution of a
    negative amount raises the remaining cap; and a mandate created with
    a cap of 0 is active at cap 0. *)
Lemma execute_negative_amount_raises_cap :
  m_cap_amount <$> mandates mandated_db !! "mandate-0" = Some 10000
  ∧ m_cap_amount
      <$> mandates
            (snd (execute_mandate (demo_env "execution-" 1000 true) None
                    (demo_execute "mandate-0" (-5000)) mandated_db))
          !! "mandate-0"
    = Some 15000
  ∧ (λ m, (m_cap_amount m, m_state m))
      <$> mandates
            (snd (create_mandates (demo_env "mandate-" 1000 true) None "user-1"
                    (demo_mandates ["user-2"] 0) seeded_db))
          !! "mandate-0"
    = Some (0, "active").
Proof. vm_compute. done. Qed.

(** ** Minting vouchers and creating mandates *)

Lemma mint_loop_spec env us d member_ids n :
  let vs := mint_loop env us d member_ids n in
  vs.*1 = uuid4 env <$> seq n (length vs)
  ∧ (v_member_user_id ∘ snd) <$> vs = filter (λ member_id, member_id ∈ us) member_ids
  ∧ (length vs ≤ length member_ids)%nat
  ∧ Forall (λ v, v_plan_id v.2 = vc_plan_id d ∧ v_amount v.2 = vc_amount d
                 ∧ v_merchant_list v.2 = vc_merchant_list d
                 ∧ v_expires_at v.2 = vc_expires_at d
                 ∧ v_state v.2 = "active") vs.
Proof.
  revert n. induction member_ids as [|member_id rest IH]; intros n.
  - by repeat split.
  - cbn [mint_loop]. rewrite filter_cons. case_bool_decide as Hin.
    + destruct (IH (S n)) as (Hk & Hm & Hl & Hf).
      rewrite decide_True by done.
      split; [|split; [|split]].
      * rewrite fmap_cons, Hk. done.
      * rewrite fmap_cons, Hm. done.
      * simpl. lia.
      * by constructor.
    + destruct (IH n) as (Hk & Hm & Hl & Hf).
      rewrite decide_False by done.
      split; [done|]. split; [done|]. split; [simpl; lia|done].
Qed.

Lemma create_loop_spec env us d member_ids n :
  let ms := create_loop env us d member_ids n in
  ms.*1 = uuid4 env <$> seq n (length ms)
  ∧ (m_member_user_id ∘ snd) <$> ms = filter (λ member_id, member_id ∈ us) member_ids
  ∧ (length ms ≤ length member_ids)%nat
  ∧ Forall (λ m, m_plan_id m.2 = mc_plan_id d ∧ m_cap_amount m.2 = mc_cap_amount d
                 ∧ m_valid_from m.2 = mc_valid_from d
                 ∧ m_valid_to m.2 = mc_valid_to d
                 ∧ m_state m.2 = "active") ms.
Proof.
  revert n. induction member_ids as [|member_id rest IH]; intros n.
  - by repeat split.
  - cbn [create_loop]. rewrite filter_cons. case_bool_decide as Hin.
    + destruct (IH (S n)) as (Hk & Hm & Hl & Hf).
      rewrite decide_True by done.
      split; [|split; [|split]].
      * rewrite fmap_cons, Hk. done.
      * rewrite fmap_cons, Hm. done.
      * simpl. lia.
      * by constructor.
    + destruct (IH n) as (Hk & Hm & Hl & Hf).
      rewrite decide_False by done.
      split; [done|]. split; [done|]. split; [simpl; lia|done].
Qed.




(** ** Payment intents and confirmation *)

(** A confirm call whose intent id has no pending transaction is turned
    away with 404 and changes nothing. *)
Lemma confirm_payment_not_pending env state_key confirm_data db :
  query_pending_transaction db (cf_intent_id confirm_data) = None →
  confirm_payment env state_key confirm_data db
  = (Raise (HTTPException 404 "Transaction not found or already processed"), db).
Proof. intros Hq. unfold confirm_payment. by rewrite Hq. Qed.

(** C2, the code at the failing input.  The transaction of [intent_db] is
    pending.  Confirming it with status "pending" succeeds and leaves it
    pending, so that a second confirm of the same intent id succeeds as
    well; confirming it with a status outside the three documented ones
    succeeds too and stores that status. *)
Theorem confirm_with_status_pending :
  let env := demo_env "entry-" 1700000050 true in
  let '(response1, db1) :=
    confirm_payment env None (demo_confirm "pending") intent_db in
  (λ t, (t_intent_id t, t_status t)) <$> transactions intent_db
  = [("intent_1700000000_1234", "pending")]
  ∧ response1 = Ok (ConfirmResult "txn-0" "pending" None)
  ∧ (λ t, (t_intent_id t, t_status t)) <$> transactions db1
    = [("intent_1700000000_1234", "pending")]
  ∧ fst (confirm_payment env None (demo_confirm "completed") db1)
    = Ok (ConfirmResult "txn-0" "completed" None)
  ∧ (let '(response2, db2) :=
       confirm_payment env None (demo_confirm "refunded") intent_db in
     response2 = Ok (ConfirmResult "txn-0" "refunded" None)
     ∧ t_status <$> transactions db2 = ["refunded"]).
Proof. vm_compute. done. Qed.

(** The intent id is a function of the clock's second and the random
    draw alone. *)
Lemma new_intent_id_same env1 env2 :
  time_time env1 = time_time env2 →
  randint_1000_9999 env1 = randint_1000_9999 env2 →
  new_intent_id env1 = new_intent_id env2.
Proof. unfold new_intent_id. by intros -> ->. Qed.

(** An intent id that a call returns is not the intent id of an earlier
    transaction: the unique column turns a repeated id into an error. *)
Lemma create_payment_intent_returns_new_id env state_key d db r db' :
  create_payment_intent env state_key d db = (Ok r, db') →
  ∃ transaction,
    r = IntentCreated (new_intent_id env) transaction (25000 <? pi_amount d)
    ∧ (new_intent_id env ∉ t_intent_id <$> transactions db).
Proof.
  unfold create_payment_intent. destruct (plans db !! _); [|done].
  case_bool_decide; [|done]. unfold insert_transaction.
  case_bool_decide as Hid; simpl; [done|].
  case_bool_decide as Hintent; simpl; [done|].
  intros Hr. unfold respond in Hr. destruct state_key as [key|].
  - destruct (store_idempotent_response _ _ _ _ _) as [[[]|e] db'']; simplify_eq.
    by eexists.
  - simplify_eq. by eexists.
Qed.


(** A new transaction is pending. *)
Lemma create_payment_intent_pending env state_key d db intent_id t g db' :
  create_payment_intent env state_key d db = (Ok (IntentCreated intent_id t g), db') →
  t_status t = "pending" ∧ t_intent_id t = intent_id
  ∧ ∃ rs, db' = with_idempotent_requests rs
                  (with_transactions (transactions db ++ [t]) (ledger_entries db) db).
Proof.
  unfold create_payment_intent. destruct (plans db !! _); [|done].
  case_bool_decide; [|done]. unfold insert_transaction.
  destruct (_ || _); [done|]. intros Hr.
  match type of Hr with
  | respond ?e ?n ?k ?r ?d = _ =>
      destruct (respond_db e n k r d) as [rs Hrs];
      assert (Hfst : fst (respond e n k r d) = Ok r ∨ ∃ err, fst (respond e n k r d) = Raise err)
  end.
  { unfold respond. destruct state_key; [|by left].
    destruct (store_idempotent_response _ _ _ _ _) as [[[]|err] ?]; eauto. }
  rewrite Hr in Hrs, Hfst. simpl in *.
  destruct Hfst as [Hok|[err Herr]]; [|done]. simplify_eq.
  split; [done|]. split; [done|]. by exists rs.
Qed.

Lemma NoDup_fmap_eq {A} (f : A → string) (l : list A) x y :
  NoDup (f <$> l) → x ∈ l → y ∈ l → f x = f y → x = y.
Proof.
  induction l as [|a l IH]; simpl; intros Hnd Hx Hy Hf.
  - by apply elem_of_nil in Hx.
  - apply NoDup_cons in Hnd as [Ha Hnd].
    apply elem_of_cons in Hx as [->|Hx]; apply elem_of_cons in Hy as [->|Hy].
    + done.
    + exfalso. apply Ha. rewrite Hf. by apply list_elem_of_fmap_2.
    + exfalso. apply Ha. rewrite <- Hf. by apply list_elem_of_fmap_2.
    + by apply IH.
Qed.

(** Updating a row by primary key keeps both key columns as they are. *)
Lemma update_transaction_keys t status rrn_stub ts :
  t ∈ ts → NoDup (t_id <$> ts) →
  t_id <$> update_transaction (set_status t status rrn_stub) ts = t_id <$> ts
  ∧ t_intent_id <$> update_transaction (set_status t status rrn_stub) ts
    = t_intent_id <$> ts.
Proof.
  intros Hin Hnd. unfold update_transaction. rewrite <- !list_fmap_compose.
  split; apply list_fmap_ext; intros i u Hu; simpl;
    (case_bool_decide as Hid; [|done]); simpl in *; [done|].
  f_equal. symmetry. eapply NoDup_fmap_eq; [exact Hnd| |done|done].
  by eapply list_elem_of_lookup_2.
Qed.

Lemma query_pending_transaction_Some db intent_id t :
  query_pending_transaction db intent_id = Some t →
  t ∈ transactions db ∧ t_intent_id t = intent_id ∧ t_status t = "pending".
Proof.
  unfold query_pending_transaction. intros H. apply find_some in H as [Hin Hp].
  apply andb_true_iff in Hp as [Hi Hs].
  apply bool_decide_eq_true in Hi, Hs. by rewrite list_elem_of_In.
Qed.

Lemma find_none_all {A} (f : A → bool) (l : list A) :
  (∀ x, x ∈ l → f x = false) → List.find f l = None.
Proof.
  induction l as [|a l IH]; simpl; intros Hall; [done|].
  rewrite (Hall a) by (apply elem_of_cons; by left).
  apply IH. intros x Hx. apply Hall. apply elem_of_cons. by right.
Qed.

(** With the key columns unique, a confirm that succeeds with a status
    other than "pending" leaves no pending transaction under the intent
    id, so that any further confirm of it gets 404. *)
Lemma confirm_payment_closes env state_key d db r db' :
  transactions_unique db →
  cf_status d ≠ "pending" →
  confirm_payment env state_key d db = (Ok r, db') →
  transactions_unique db'
  ∧ ∀ env' state_key' d', cf_intent_id d' = cf_intent_id d →
      confirm_payment env' state_key' d' db'
      = (Raise (HTTPException 404 "Transaction not found or already processed"), db').
Proof.
  intros [Hids Hintents] Hstatus. unfold confirm_payment.
  destruct (query_pending_transaction db _) as [t|] eqn:Hq; [|done].
  apply query_pending_transaction_Some in Hq as (Hin & Hintent & _).
  destruct (insert_rows _ _ _) as [ls|]; [|done]. intros Hr.
  match type of Hr with
  | respond ?e ?n ?k ?r ?d = _ => destruct (respond_db e n k r d) as [rs Hrs]
  end.
  rewrite Hr in Hrs. simpl in Hrs. subst db'.
  destruct (update_transaction_keys t (cf_status d) (cf_rrn_stub d)
              (transactions db) Hin Hids) as [Hk1 Hk2].
  split.
  - unfold transactions_unique. simpl. by rewrite Hk1, Hk2.
  - intros env' state_key' d' Hd'. apply confirm_payment_not_pending.
    rewrite Hd'. unfold query_pending_transaction. simpl.
    apply find_none_all. intros u Hu.
    unfold update_transaction in Hu.
    apply list_elem_of_fmap in Hu as (u0 & -> & Hu0).
    apply andb_false_iff. simpl.
    destruct (bool_decide (t_id u0 = t_id t)) eqn:Hid; simpl.
    + right. by apply bool_decide_eq_false.
    + left. apply bool_decide_eq_false. intros Hi.
      apply bool_decide_eq_false in Hid. apply Hid. f_equal.
      eapply NoDup_fmap_eq; [exact Hintents|done|done|]. by rewrite Hi.
Qed.

(** The key columns of [transactions] stay unique under every request. *)
Lemma call_next_transactions_unique env state_key req db :
  transactions_unique db →
  transactions_unique (snd (call_next env state_key req db)).
Proof.
  intros Hu. unfold call_next. destruct (req_endpoint req) as [d|d|d|d|d|d|d].
  - unfold create_plan. destruct (insert_keyed _ _); [|done].
    destruct (insert_rows _ _ _); [|done]. by respond_frame.
  - unfold mint_vouchers. destruct (plans db !! _); [|done].
    case_bool_decide; [done|]. destruct (insert_keyed _ _); [|done].
    by respond_frame.
  - unfold redeem_vouchers, redeem_vouchers_with.
    case_bool_decide; [done|]. unfold redeem_commit.
    destruct (insert_rows _ _ _); [|done]. by respond_frame.
  - unfold create_mandates. destruct (plans db !! _); [|done].
    case_bool_decide; [done|]. destruct (insert_keyed _ _); [|done].
    by respond_frame.
  - unfold execute_mandate. destruct (_ || _); [done|].
    destruct (query_active_mandate _ _); [|done].
    destruct (_ >? _); [done|]. destruct (insert_rows _ _ _); [|done].
    by respond_frame.
  - unfold create_payment_intent. destruct (plans db !! _); [|done].
    case_bool_decide; [|done]. unfold insert_transaction. simpl.
    destruct (bool_decide (uuid4 env 0%nat ∈ t_id <$> transactions db))
      eqn:Hid; simpl; [done|].
    destruct (bool_decide (new_intent_id env ∈ t_intent_id <$> transactions db))
      eqn:Hintent; simpl; [done|].
    apply bool_decide_eq_false in Hid, Hintent.
    respond_frame. destruct Hu as [Hids Hintents].
    unfold transactions_unique. simpl. rewrite !fmap_app. simpl.
    split; apply NoDup_app; (split; [done|]);
      (split; [|apply NoDup_singleton]);
      intros x Hx Hx'; apply list_elem_of_singleton in Hx'; by subst.
  - unfold confirm_payment.
    destruct (query_pending_transaction _ _) as [t|] eqn:Hq; [|done].
    apply query_pending_transaction_Some in Hq as (Hin & _ & _).
    destruct (insert_rows _ _ _); [|done]. respond_frame.
    destruct Hu as [Hids Hintents].
    destruct (update_transaction_keys t (cf_status d) (cf_rrn_stub d)
                (transactions db) Hin Hids) as [Hk1 Hk2].
    unfold transactions_unique. simpl. by rewrite Hk1, Hk2.
Qed.

Lemma serve_transactions_unique reqs db :
  transactions_unique db → transactions_unique (serve reqs db).
Proof.
  revert db. induction reqs as [|[env req] reqs IH]; simpl; intros db Hu; [done|].
  apply IH. unfold idempotency_middleware. destruct (_ && _).
  - destruct (get_response _ _); [done|]. by apply call_next_transactions_unique.
  - by apply call_next_transactions_unique.
Qed.

(** ** Idempotent replay *)
















Lemma ledger_balanced_witness :
  ledger_entries seeded_db = []
  ∧ total "debit" (ledger_entries (serve demo_payment seeded_db))
    = total "credit" (ledger_entries (serve demo_payment seeded_db))
  ∧ verify_ledger_balance (serve demo_payment seeded_db) = true
  ∧ (λ e, (le_account e, le_leg e, le_amount e))
      <$> ledger_entries (serve demo_payment seeded_db)
    = [("plan_plan-demo-1", "debit", 15000);
       ("merchant_merchant-campus-1-0", "credit", 15000)].
Proof.
  split; [reflexivity|].
  destruct (ledger_balanced_after_any_requests seeded_db demo_payment eq_refl)
    as [Hsum Hverify].
  split; [exact Hsum|]. split; [exact Hverify|]. vm_compute. reflexivity.
Defined.

(** * Further properties of the code *)

(** ** Errors and side effects *)

Lemma respond_result env n state_key r db :
  fst (respond env n state_key r db) = Ok r
  ∨ (fst (respond env n state_key r db) = Raise IntegrityError
     ∧ is_Some state_key).
Proof.
  unfold respond. destruct state_key as [key|]; [|by left].
  unfold store_idempotent_response, store_response.
  destruct (query_idempotent key db); [by left|].
  destruct (insert_rows _ _ _); [by left|right]. by split.
Qed.

(** A route either raises before it has changed anything, or commits and
    goes on to [respond]. *)
Lemma call_next_shape env state_key req db :
  (snd (call_next env state_key req db) = db
   ∧ ∃ e, fst (call_next env state_key req db) = Raise e)
  ∨ ∃ n r dbc, call_next env state_key req db = respond env n state_key r dbc.
Proof.
  unfold call_next. destruct (req_endpoint req) as [d|d|d|d|d|d|d].
  - unfold create_plan. destruct (insert_keyed _ _); [|left; eauto].
    destruct (insert_rows _ _ _); [|left; eauto]. right. by eexists _, _, _.
  - unfold mint_vouchers. destruct (plans db !! _); [|left; eauto].
    case_bool_decide; [left; eauto|].
    destruct (insert_keyed _ _); [|left; eauto]. right. by eexists _, _, _.
  - unfold redeem_vouchers, redeem_vouchers_with.
    case_bool_decide; [left; eauto|]. unfold redeem_commit.
    destruct (insert_rows _ _ _); [|left; eauto]. right. by eexists _, _, _.
  - unfold create_mandates. destruct (plans db !! _); [|left; eauto].
    case_bool_decide; [left; eauto|].
    destruct (insert_keyed _ _); [|left; eauto]. right. by eexists _, _, _.
  - unfold execute_mandate. destruct (_ || _); [left; eauto|].
    destruct (query_active_mandate _ _); [|left; eauto].
    destruct (_ >? _); [left; eauto|].
    destruct (insert_rows _ _ _); [|left; eauto]. right. by eexists _, _, _.
  - unfold create_payment_intent. destruct (plans db !! _); [|left; eauto].
    case_bool_decide; [|left; eauto].
    destruct (insert_transaction _ _); [|left; eauto]. right. by eexists _, _, _.
  - unfold confirm_payment.
    destruct (query_pending_transaction _ _); [|left; eauto].
    destruct (insert_rows _ _ _); [|left; eauto]. right. by eexists _, _, _.
Qed.

(** X1. A request that ends in an HTTPException (400, 403, 404) has
    changed nothing in the database; and a request without an idempotency
    key (or with an empty one) has changed nothing whenever it ends in any
    error. *)
Theorem error_leaves_database_unchanged (env : Env) (req : Request)
    (db db' : DB) (e : Error) :
  idempotency_middleware env req db = (Raise e, db') →
  e ≠ IntegrityError ∨ truthy_str (req_idempotency_key req) = false →
  db' = db.
Proof.
  intros Hrun Hcase.
  assert (Hroute : ∀ state_key,
    call_next env state_key req db = (Raise e, db') →
    e ≠ IntegrityError ∨ state_key = None → db' = db).
  { intros state_key Hcall Hc.
    destruct (call_next_shape env state_key req db)
      as [[Hsame _]|(n & r & dbc & Hresp)].
    - by rewrite Hcall in Hsame.
    - rewrite Hcall in Hresp.
      destruct (respond_result env n state_key r dbc) as [Hok|[Herr [key Hkey]]];
        rewrite <- Hresp in *; simpl in *; [done|].
      simplify_eq. by destruct Hc. }
  unfold idempotency_middleware in Hrun.
  destruct (truthy_str (req_idempotency_key req)) eqn:Htruthy; simpl in Hrun.
  - destruct (get_response _ _); [done|].
    apply (Hroute _ Hrun). destruct Hcase as [?|?]; [by left|done].
  - apply (Hroute _ Hrun). by right.
Qed.

Lemma error_leaves_database_unchanged_witness :
  idempotency_middleware (demo_env "voucher-" 1000 true)
    (demo_request (Some "key-9")
       (PostVouchersMint
          {| vc_plan_id := "no-such-plan"; vc_member_user_ids := ["user-2"];
             vc_amount := 10000; vc_merchant_list := [];
             vc_expires_at := 2000 |}))
    seeded_db
  = (Raise (HTTPException 404 "Plan not found"), seeded_db).
Proof.
  assert (Hrun : ∃ db',
    idempotency_middleware (demo_env "voucher-" 1000 true)
      (demo_request (Some "key-9")
         (PostVouchersMint
            {| vc_plan_id := "no-such-plan"; vc_member_user_ids := ["user-2"];
               vc_amount := 10000; vc_merchant_list := [];
               vc_expires_at := 2000 |}))
      seeded_db
    = (Raise (HTTPException 404 "Plan not found"), db')).
  { eexists. vm_compute. reflexivity. }
  destruct Hrun as [db' Hrun]. rewrite Hrun. f_equal.
  refine (error_leaves_database_unchanged _ _ _ _ _ Hrun _).
  left. discriminate.
Defined.

(** ** Account balances and the entries of a transaction *)

Lemma get_account_balance_app db db' extra account :
  ledger_entries db' = ledger_entries db ++ extra →
  get_account_balance db' account
  = get_account_balance db account
    + total "credit" (filter (λ e, le_account e = account) extra)
    - total "debit" (filter (λ e, le_account e = account) extra).
Proof.
  intros Hext. unfold get_account_balance. rewrite Hext, !or_zero_sql_sum.
  rewrite filter_app.
  pose proof (total_app "credit"
                (filter (λ e, le_account e = account) (ledger_entries db))
                (filter (λ e, le_account e = account) extra)) as Hc.
  pose proof (total_app "debit"
                (filter (λ e, le_account e = account) (ledger_entries db))
                (filter (λ e, le_account e = account) extra)) as Hd.
  unfold total in *. rewrite Hc, Hd. lia.
Qed.

(** Only the confirm route writes to the ledger. *)
Lemma other_routes_keep_ledger env state_key req db :
  (∀ d, req_endpoint req ≠ PostPaymentsConfirm d) →
  ledger_entries (snd (call_next env state_key req db)) = ledger_entries db.
Proof.
  intros Hreq. unfold call_next. destruct (req_endpoint req) as [d|d|d|d|d|d|d].
  - unfold create_plan. destruct (insert_keyed _ _); [|done].
    destruct (insert_rows _ _ _); [|done]. by respond_frame.
  - unfold mint_vouchers. destruct (plans db !! _); [|done].
    case_bool_decide; [done|]. destruct (insert_keyed _ _); [|done].
    by respond_frame.
  - unfold redeem_vouchers, redeem_vouchers_with.
    case_bool_decide; [done|]. unfold redeem_commit.
    destruct (insert_rows _ _ _); [|done]. by respond_frame.
  - unfold create_mandates. destruct (plans db !! _); [|done].
    case_bool_decide; [done|]. destruct (insert_keyed _ _); [|done].
    by respond_frame.
  - unfold execute_mandate. destruct (_ || _); [done|].
    destruct (query_active_mandate _ _); [|done].
    destruct (_ >? _); [done|]. destruct (insert_rows _ _ _); [|done].
    by respond_frame.
  - unfold create_payment_intent. destruct (plans db !! _); [|done].
    case_bool_decide; [|done]. destruct (insert_transaction _ _); [|done].
    by respond_frame.
  - by destruct (Hreq d).
Qed.

(** X2. A confirm that succeeds with status "completed" lowers the
    balance of the plan's account by the transaction's amount and raises
    the balance of the merchant's account by it, and leaves every other
    account as it was; a confirm with any other status, and a request to
    any other route, changes no balance. *)
Theorem confirm_moves_amount_between_accounts (env : Env)
    (state_key : option string) (d : PaymentConfirm) (db db' : DB)
    (t : Transaction) (r : Response) :
  query_pending_transaction db (cf_intent_id d) = Some t →
  confirm_payment env state_key d db = (Ok r, db') →
  (∀ account,
     get_account_balance db' account
     = get_account_balance db account
       + (if bool_decide (cf_status d = "completed"
                          ∧ account = "merchant_" +:+ t_merchant_id t)
          then t_amount t else 0)
       - (if bool_decide (cf_status d = "completed"
                          ∧ account = "plan_" +:+ t_plan_id t)
          then t_amount t else 0))
  ∧ (∀ env' state_key' req account,
       (∀ d', req_endpoint req ≠ PostPaymentsConfirm d') →
       get_account_balance (snd (call_next env' state_key' req db)) account
       = get_account_balance db account).
Proof.
  intros Hq Hconfirm. split.
  - intros account. unfold confirm_payment in Hconfirm. rewrite Hq in Hconfirm.
    destruct (insert_rows _ _ _) as [ls|] eqn:Hins; [|done].
    apply insert_rows_Some in Hins.
    match type of Hconfirm with
    | respond ?e ?n ?k ?r ?d = _ => destruct (respond_db e n k r d) as [rs Hrs]
    end.
    rewrite Hconfirm in Hrs. simpl in Hrs.
    rewrite (get_account_balance_app db db' _ account)
      by (rewrite Hrs; simpl; by rewrite Hins).
    case_bool_decide as Hcompleted; simpl.
    + unfold total, leg_amounts. rewrite !filter_cons, !filter_nil. simpl.
      rewrite (bool_decide_ext (_ ∧ _) (account = "merchant_" +:+ t_merchant_id t))
        by tauto.
      rewrite (bool_decide_ext (_ ∧ _) (account = "plan_" +:+ t_plan_id t))
        by tauto.
      destruct (decide ("plan_" +:+ t_plan_id t = account)) as [Hp|Hp];
      destruct (decide ("merchant_" +:+ t_merchant_id t = account)) as [Hm|Hm];
        simpl.
      * rewrite <- Hp in Hm. discriminate Hm.
      * rewrite bool_decide_eq_false_2 by (by intros ->).
        rewrite bool_decide_eq_true_2 by done. simpl. lia.
      * rewrite bool_decide_eq_true_2 by done.
        rewrite bool_decide_eq_false_2 by (by intros ->). simpl. lia.
      * rewrite !bool_decide_eq_false_2 by (by intros ->). simpl. lia.
    + rewrite !bool_decide_eq_false_2 by tauto. unfold total. simpl. lia.
  - intros env' state_key' req account Hreq. unfold get_account_balance.
    by rewrite other_routes_keep_ledger.
Qed.

Lemma confirm_moves_amount_witness :
  let db' := serve demo_payment seeded_db in
  get_account_balance seeded_db "plan_plan-demo-1" = 0
  ∧ get_account_balance db' "plan_plan-demo-1" = -15000
  ∧ get_account_balance db' "merchant_merchant-campus-1-0" = 15000.
Proof.
  intros db'.
  destruct (confirm_moves_amount_between_accounts
              (demo_env "entry-" 1700000050 true) None (demo_confirm "completed")
              intent_db db'
              {| t_id := "txn-0"; t_intent_id := "intent_1700000000_1234";
                 t_plan_id := "plan-demo-1";
                 t_merchant_id := "merchant-campus-1-0";
                 t_amount := 15000; t_mode := "vouchers";
                 t_status := "pending"; t_rrn_stub := None |}
              (ConfirmResult "txn-0" "completed" None)) as [Hbal _].
  - reflexivity.
  - vm_compute. reflexivity.
  - split; [reflexivity|]. split.
    + rewrite (Hbal "plan_plan-demo-1"). vm_compute. reflexivity.
    + rewrite (Hbal "merchant_merchant-campus-1-0"). vm_compute. reflexivity.
Defined.

Lemma ledger_pair_or_none_ext db db' x :
  transactions db' = transactions db →
  ledger_entries db' = ledger_entries db →
  ledger_pair_or_none db x → ledger_pair_or_none db' x.
Proof.
  unfold ledger_pair_or_none, get_transaction_ledger_entries.
  by intros -> ->.
Qed.

(** One route, seen from the entries of each transaction. *)
Lemma call_next_ledger_pairs env state_key req db :
  NoDup (t_id <$> transactions db) →
  (∀ x, ledger_pair_or_none db x) →
  NoDup (t_id <$> transactions (snd (call_next env state_key req db)))
  ∧ ∀ x, ledger_pair_or_none (snd (call_next env state_key req db)) x.
Proof.
  intros Hids Hinv.
  assert (Hsame : ∀ db', transactions db' = transactions db →
            ledger_entries db' = ledger_entries db →
            NoDup (t_id <$> transactions db')
            ∧ ∀ x, ledger_pair_or_none db' x).
  { intros db' Ht Hl. split; [by rewrite Ht|].
    intros x. by eapply ledger_pair_or_none_ext. }
  unfold call_next. destruct (req_endpoint req) as [d|d|d|d|d|d|d].
  - unfold create_plan. destruct (insert_keyed _ _); [|by apply Hsame].
    destruct (insert_rows _ _ _); [|by apply Hsame].
    respond_frame. by apply Hsame.
  - unfold mint_vouchers. destruct (plans db !! _); [|by apply Hsame].
    case_bool_decide; [by apply Hsame|].
    destruct (insert_keyed _ _); [|by apply Hsame].
    respond_frame. by apply Hsame.
  - unfold redeem_vouchers, redeem_vouchers_with.
    case_bool_decide; [by apply Hsame|]. unfold redeem_commit.
    destruct (insert_rows _ _ _); [|by apply Hsame].
    respond_frame. by apply Hsame.
  - unfold create_mandates. destruct (plans db !! _); [|by apply Hsame].
    case_bool_decide; [by apply Hsame|].
    destruct (insert_keyed _ _); [|by apply Hsame].
    respond_frame. by apply Hsame.
  - unfold execute_mandate. destruct (_ || _); [by apply Hsame|].
    destruct (query_active_mandate _ _); [|by apply Hsame].
    destruct (_ >? _); [by apply Hsame|].
    destruct (insert_rows _ _ _); [|by apply Hsame].
    respond_frame. by apply Hsame.
  - unfold create_payment_intent. destruct (plans db !! _); [|by apply Hsame].
    case_bool_decide; [|by apply Hsame]. unfold insert_transaction. simpl.
    destruct (bool_decide (uuid4 env 0%nat ∈ t_id <$> transactions db))
      eqn:Hid; simpl; [by apply Hsame|].
    destruct (bool_decide (new_intent_id env ∈ t_intent_id <$> transactions db));
      simpl; [by apply Hsame|].
    apply bool_decide_eq_false in Hid. respond_frame. simpl. split.
    + rewrite fmap_app. simpl. apply NoDup_app. split; [done|].
      split; [|apply NoDup_singleton].
      intros x Hx Hx'. apply list_elem_of_singleton in Hx'. by subst.
    + intros x. destruct (Hinv x) as [Hnone|(t & Hin & Hrest)]; [by left|right].
      exists t. split; [|done]. simpl. apply elem_of_app. by left.
  - unfold confirm_payment.
    destruct (query_pending_transaction db _) as [t|] eqn:Hq; [|by apply Hsame].
    apply query_pending_transaction_Some in Hq as (Hin & _ & Hpending).
    destruct (insert_rows _ _ _) as [ls|] eqn:Hins; [|by apply Hsame].
    apply insert_rows_Some in Hins. respond_frame. simpl.
    destruct (update_transaction_keys t (cf_status d) (cf_rrn_stub d)
                (transactions db) Hin Hids) as [Hk1 _].
    split; [by rewrite Hk1|]. intros x.
    unfold ledger_pair_or_none, get_transaction_ledger_entries. simpl.
    rewrite Hins, filter_app.
    destruct (decide (x = t_id t)) as [->|Hx].
    + assert (Hold : filter (λ e, le_txn_id e = t_id t) (ledger_entries db) = []).
      { destruct (Hinv (t_id t)) as [Hnone|(t' & Hin' & Hid' & Hst' & _)];
          [done|].
        assert (t' = t) by (eapply NoDup_fmap_eq; [exact Hids|done..]).
        subst t'. rewrite Hpending in Hst'. discriminate Hst'. }
      rewrite Hold. simpl. case_bool_decide as Hcompleted; [right|by left].
      exists (set_status t (cf_status d) (cf_rrn_stub d)).
      split.
      { unfold update_transaction. apply list_elem_of_fmap.
        exists t. split; [|done]. by rewrite bool_decide_eq_true_2. }
      split; [done|]. split; [done|].
      simpl. rewrite !filter_cons, filter_nil. simpl.
      rewrite !decide_True by done. done.
    + assert (Hnew : filter (λ e, le_txn_id e = x)
                (if bool_decide (cf_status d = "completed")
                 then
                   let '(debit_entry, credit_entry) :=
                     create_ledger_entries env 0
                       (t_id (set_status t (cf_status d) (cf_rrn_stub d)))
                       (t_amount (set_status t (cf_status d) (cf_rrn_stub d)))
                       ("plan_" +:+ t_plan_id (set_status t (cf_status d) (cf_rrn_stub d)))
                       ("merchant_" +:+ t_merchant_id (set_status t (cf_status d) (cf_rrn_stub d)))
                   in [debit_entry; credit_entry]
                 else []) = []).
      { case_bool_decide; [|done]. simpl.
        rewrite !filter_cons, filter_nil. simpl.
        by rewrite !decide_False by (by intros <-). }
      rewrite Hnew, app_nil_r.
      destruct (Hinv x) as [Hnone|(t' & Hin' & Hid' & Hrest)]; [by left|right].
      exists t'. split; [|done].
      unfold update_transaction. apply list_elem_of_fmap.
      exists t'. split; [|done]. simpl.
      rewrite bool_decide_eq_false_2; [done|]. rewrite Hid'. done.
Qed.

Lemma serve_ledger_pairs reqs db :
  NoDup (t_id <$> transactions db) →
  (∀ x, ledger_pair_or_none db x) →
  NoDup (t_id <$> transactions (serve reqs db))
  ∧ ∀ x, ledger_pair_or_none (serve reqs db) x.
Proof.
  revert db. induction reqs as [|[env req] reqs IH]; simpl; intros db Hids Hinv;
    [done|].
  assert (Hstep :
    NoDup (t_id <$> transactions (snd (idempotency_middleware env req db)))
    ∧ ∀ x, ledger_pair_or_none (snd (idempotency_middleware env req db)) x).
  { unfold idempotency_middleware. destruct (_ && _).
    - destruct (get_response _ _); [done|]. by apply call_next_ledger_pairs.
    - by apply call_next_ledger_pairs. }
  destruct Hstep as [Hids' Hinv']. by apply IH.
Qed.

(** X3. Starting from a database with an empty ledger (and distinct
    transaction ids), after any sequence of requests the ledger entries
    of each transaction, as [get_transaction_ledger_entries] returns them,
    are either none, or exactly two: the debit of the plan's account and
    the credit of the merchant's account, both of the transaction's
    amount, and then the transaction is completed. *)
Theorem transaction_has_no_or_two_entries (db0 : DB)
    (reqs : list (Env * Request)) (transaction_id : string) :
  ledger_entries db0 = [] →
  NoDup (t_id <$> transactions db0) →
  let db := serve reqs db0 in
  get_transaction_ledger_entries db transaction_id = []
  ∨ ∃ t, t ∈ transactions db ∧ t_id t = transaction_id
      ∧ t_status t = "completed"
      ∧ (λ e, (le_account e, le_leg e, le_amount e))
          <$> get_transaction_ledger_entries db transaction_id
        = [ ("plan_" +:+ t_plan_id t, "debit", t_amount t);
            ("merchant_" +:+ t_merchant_id t, "credit", t_amount t) ].
Proof.
  intros Hempty Hids db.
  apply (serve_ledger_pairs reqs db0 Hids).
  intros x. left. unfold get_transaction_ledger_entries. by rewrite Hempty.
Qed.

Lemma transaction_has_no_or_two_entries_witness :
  (λ e, (le_account e, le_leg e, le_amount e))
    <$> get_transaction_ledger_entries (serve demo_payment seeded_db) "txn-0"
  = [ ("plan_plan-demo-1", "debit", 15000);
      ("merchant_merchant-campus-1-0", "credit", 15000) ].
Proof.
  destruct (transaction_has_no_or_two_entries seeded_db demo_payment "txn-0")
    as [Hnone|(t & _ & _ & _ & _)].
  - reflexivity.
  - apply NoDup_nil_2.
  - vm_compute in Hnone. discriminate Hnone.
  - vm_compute. reflexivity.
Defined.

(** ** A confirmed transaction stays closed *)

Lemma query_pending_transaction_None db intent_id :
  query_pending_transaction db intent_id = None
  ↔ ∀ t, t ∈ transactions db → t_intent_id t = intent_id →
         t_status t ≠ "pending".
Proof.
  unfold query_pending_transaction. split.
  - intros Hnone t Hin Hintent Hst.
    pose proof (find_none _ _ Hnone t) as Hf. rewrite <- list_elem_of_In in Hf.
    specialize (Hf Hin). simpl in Hf.
    rewrite !bool_decide_eq_true_2 in Hf by done. discriminate Hf.
  - intros Hall. apply find_none_all. intros t Hin.
    apply andb_false_iff.
    destruct (decide (t_intent_id t = intent_id)) as [Hi|Hi].
    + right. apply bool_decide_eq_false. by apply Hall.
    + left. by apply bool_decide_eq_false.
Qed.

Lemma intent_closed_ext db db' x :
  transactions db' = transactions db → intent_closed db x → intent_closed db' x.
Proof.
  unfold intent_closed, query_pending_transaction. by intros ->.
Qed.

Lemma call_next_intent_closed env state_key req db x :
  transactions_unique db → intent_closed db x →
  intent_closed (snd (call_next env state_key req db)) x.
Proof.
  intros [Hids Hintents] Hclosed.
  assert (Hsame : ∀ db', transactions db' = transactions db → intent_closed db' x)
    by (intros db' Ht; by eapply intent_closed_ext).
  unfold call_next. destruct (req_endpoint req) as [d|d|d|d|d|d|d].
  - unfold create_plan. destruct (insert_keyed _ _); [|by apply Hsame].
    destruct (insert_rows _ _ _); [|by apply Hsame].
    respond_frame. by apply Hsame.
  - unfold mint_vouchers. destruct (plans db !! _); [|by apply Hsame].
    case_bool_decide; [by apply Hsame|].
    destruct (insert_keyed _ _); [|by apply Hsame].
    respond_frame. by apply Hsame.
  - unfold redeem_vouchers, redeem_vouchers_with.
    case_bool_decide; [by apply Hsame|]. unfold redeem_commit.
    destruct (insert_rows _ _ _); [|by apply Hsame].
    respond_frame. by apply Hsame.
  - unfold create_mandates. destruct (plans db !! _); [|by apply Hsame].
    case_bool_decide; [by apply Hsame|].
    destruct (insert_keyed _ _); [|by apply Hsame].
    respond_frame. by apply Hsame.
  - unfold execute_mandate. destruct (_ || _); [by apply Hsame|].
    destruct (query_active_mandate _ _); [|by apply Hsame].
    destruct (_ >? _); [by apply Hsame|].
    destruct (insert_rows _ _ _); [|by apply Hsame].
    respond_frame. by apply Hsame.
  - unfold create_payment_intent. destruct (plans db !! _); [|by apply Hsame].
    case_bool_decide; [|by apply Hsame]. unfold insert_transaction. simpl.
    destruct (bool_decide (uuid4 env 0%nat ∈ t_id <$> transactions db));
      simpl; [by apply Hsame|].
    destruct (bool_decide (new_intent_id env ∈ t_intent_id <$> transactions db))
      eqn:Hnew; simpl; [by apply Hsame|].
    apply bool_decide_eq_false in Hnew. respond_frame.
    destruct Hclosed as [Hin Hnone]. split; simpl.
    + rewrite fmap_app. apply elem_of_app. by left.
    + apply query_pending_transaction_None. simpl. intros t Ht Hintent.
      apply elem_of_app in Ht as [Ht|Ht].
      * by eapply query_pending_transaction_None.
      * apply list_elem_of_singleton in Ht. subst t. simpl in Hintent.
        rewrite Hintent in Hnew. done.
  - unfold confirm_payment.
    destruct (query_pending_transaction db _) as [t|] eqn:Hq; [|by apply Hsame].
    apply query_pending_transaction_Some in Hq as (Hin & Hintent & Hpending).
    destruct (insert_rows _ _ _); [|by apply Hsame]. respond_frame.
    destruct Hclosed as [Hx Hnone].
    destruct (update_transaction_keys t (cf_status d) (cf_rrn_stub d)
                (transactions db) Hin Hids) as [_ Hk2].
    split; simpl; [by rewrite Hk2|].
    apply query_pending_transaction_None. simpl. intros u Hu Hux.
    unfold update_transaction in Hu.
    apply list_elem_of_fmap in Hu as (u0 & -> & Hu0).
    destruct (bool_decide (t_id u0 = t_id (set_status t (cf_status d) (cf_rrn_stub d))));
      simpl in *.
    + exfalso. rewrite <- Hux in Hnone. simpl in Hnone.
      exact (proj1 (query_pending_transaction_None db (t_intent_id t))
               Hnone t Hin eq_refl Hpending).
    + by eapply query_pending_transaction_None.
Qed.

Lemma serve_intent_closed reqs db x :
  transactions_unique db → intent_closed db x →
  intent_closed (serve reqs db) x.
Proof.
  revert db. induction reqs as [|[env req] reqs IH]; simpl; intros db Hu Hc;
    [done|].
  apply IH.
  - apply (serve_transactions_unique [(env, req)] db Hu).
  - unfold idempotency_middleware. destruct (_ && _).
    + destruct (get_response _ _); [done|]. by apply call_next_intent_closed.
    + by apply call_next_intent_closed.
Qed.

(** X4. Once a confirm has succeeded with a status other than "pending",
    the transaction is closed for good: whatever requests are served
    afterwards, every confirm of that intent id gets 404 and changes
    nothing (the key columns of the transactions table being unique, as
    the schema declares). *)
Theorem confirmed_intent_stays_closed (env : Env) (state_key : option string)
    (d : PaymentConfirm) (db db1 : DB) (r : Response)
    (later : list (Env * Request)) (env' : Env) (state_key' : option string)
    (d' : PaymentConfirm) :
  transactions_unique db →
  cf_status d ≠ "pending" →
  confirm_payment env state_key d db = (Ok r, db1) →
  cf_intent_id d' = cf_intent_id d →
  confirm_payment env' state_key' d' (serve later db1)
  = (Raise (HTTPException 404 "Transaction not found or already processed"),
     serve later db1).
Proof.
  intros Hu Hstatus Hconfirm Hd'.
  destruct (confirm_payment_closes env state_key d db r db1 Hu Hstatus Hconfirm)
    as [Hu1 Hclosed].
  assert (Hc1 : intent_closed db1 (cf_intent_id d)).
  { split.
    - unfold confirm_payment in Hconfirm.
      destruct (query_pending_transaction db _) as [t|] eqn:Hq; [|done].
      apply query_pending_transaction_Some in Hq as (Hin & Hintent & _).
      destruct (insert_rows _ _ _); [|done].
      match type of Hconfirm with
      | respond ?e ?n ?k ?r ?d = _ => destruct (respond_db e n k r d) as [rs Hrs]
      end.
      rewrite Hconfirm in Hrs. simpl in Hrs. subst db1. simpl.
      destruct Hu as [Hids _].
      destruct (update_transaction_keys t (cf_status d) (cf_rrn_stub d)
                  (transactions db) Hin Hids) as [_ ->].
      rewrite <- Hintent. by apply list_elem_of_fmap_2.
    - specialize (Hclosed env None d eq_refl). unfold confirm_payment in Hclosed.
      destruct (query_pending_transaction db1 _); [|done].
      destruct (insert_rows _ _ _); simpl in Hclosed; discriminate Hclosed. }
  apply confirm_payment_not_pending. rewrite Hd'.
  by apply serve_intent_closed.
Qed.

Lemma confirmed_intent_stays_closed_witness :
  let db1 := serve demo_payment seeded_db in
  let later :=
    [ (demo_env "later-" 1700000100 true,
       demo_request None (PostPaymentsIntent demo_intent)) ] in
  fst (confirm_payment (demo_env "again-" 1700000200 true) None
         (demo_confirm "failed") (serve later db1))
  = Raise (HTTPException 404 "Transaction not found or already processed").
Proof.
  intros db1 later.
  rewrite (confirmed_intent_stays_closed
             (demo_env "entry-" 1700000050 true) None (demo_confirm "completed")
             intent_db db1 (ConfirmResult "txn-0" "completed" None) later
             (demo_env "again-" 1700000200 true) None (demo_confirm "failed")).
  - reflexivity.
  - split; vm_compute; repeat constructor; set_solver.
  - discriminate.
  - vm_compute. reflexivity.
  - reflexivity.
Defined.

(** ** The idempotent store *)




(** A route called without a key in the request state adds no record. *)
Lemma call_next_without_key env req db :
  idempotent_requests (snd (call_next env None req db)) = idempotent_requests db.
Proof.
  unfold call_next. destruct (req_endpoint req) as [d|d|d|d|d|d|d].
  - unfold create_plan. destruct (insert_keyed _ _); [|done].
    by destruct (insert_rows _ _ _).
  - unfold mint_vouchers. destruct (plans db !! _); [|done].
    case_bool_decide; [done|]. by destruct (insert_keyed _ _).
  - unfold redeem_vouchers, redeem_vouchers_with.
    case_bool_decide; [done|]. unfold redeem_commit.
    by destruct (insert_rows _ _ _).
  - unfold create_mandates. destruct (plans db !! _); [|done].
    case_bool_decide; [done|]. by destruct (insert_keyed _ _).
  - unfold execute_mandate. destruct (_ || _); [done|].
    destruct (query_active_mandate _ _); [|done].
    destruct (_ >? _); [done|]. by destruct (insert_rows _ _ _).
  - unfold create_payment_intent. destruct (plans db !! _); [|done].
    case_bool_decide; [|done]. by destruct (insert_transaction _ _).
  - unfold confirm_payment.
    destruct (query_pending_transaction _ _); [|done].
    by destruct (insert_rows _ _ _).
Qed.

(** X6. A request without an idempotency key, or with an empty one, is
    always handed to its route, even when responses are stored, and
    leaves the table of idempotent requests as it is: nothing of it can be
    replayed later. *)
Theorem request_without_key_is_not_recorded (env : Env) (req : Request) (db : DB) :
  truthy_str (req_idempotency_key req) = false →
  idempotency_middleware env req db = call_next env None req db
  ∧ idempotent_requests (snd (idempotency_middleware env req db))
    = idempotent_requests db
  ∧ ∀ key, get_response key (snd (idempotency_middleware env req db))
           = get_response key db.
Proof.
  intros Hkey.
  assert (Hrun : idempotency_middleware env req db = call_next env None req db).
  { unfold idempotency_middleware. by rewrite Hkey. }
  rewrite Hrun. split; [done|].
  pose proof (call_next_without_key env req db) as Hsame.
  split; [done|]. intros key. unfold get_response, query_idempotent.
  by rewrite Hsame.
Qed.

Lemma request_without_key_witness :
  let req := demo_request (Some "") (PostPlans demo_plan_create) in
  let db1 := snd (idempotency_middleware (demo_env "plan-" 1000 true) req seeded_db) in
  let db2 := snd (idempotency_middleware (demo_env "again-" 1001 true) req db1) in
  idempotent_requests db2 = [] ∧ size (plans db2) = 3%nat.
Proof.
  intros req db1 db2. split.
  - unfold db2.
    rewrite (proj1 (proj2 (request_without_key_is_not_recorded
                             (demo_env "again-" 1001 true) req db1 eq_refl))).
    unfold db1.
    rewrite (proj1 (proj2 (request_without_key_is_not_recorded
                             (demo_env "plan-" 1000 true) req seeded_db eq_refl))).
    reflexivity.
  - vm_compute. reflexivity.
Defined.

(** ** Vouchers over a sequence of requests *)

Lemma redeemed_total_app voucher_id rs1 rs2 :
  redeemed_total voucher_id (rs1 ++ rs2)
  = redeemed_total voucher_id rs1 + redeemed_total voucher_id rs2.
Proof.
  unfold redeemed_total. rewrite filter_app, fmap_app, foldr_app.
  generalize (vr_amount <$> filter (λ r, vr_voucher_id r = voucher_id) rs1) as l.
  induction l as [|a l IH]; simpl; lia.
Qed.

Lemma redeemed_total_singleton voucher_id r :
  redeemed_total voucher_id [r]
  = if bool_decide (vr_voucher_id r = voucher_id) then vr_amount r else 0.
Proof.
  unfold redeemed_total. rewrite filter_cons, filter_nil.
  case_bool_decide; [rewrite decide_True by done|rewrite decide_False by done];
    simpl; lia.
Qed.

(** The object a query gives back is the session's modified one, or else
    the committed row, which then is active. *)
Lemma query_active_voucher_cases autoflush db modified voucher_id voucher :
  query_active_voucher autoflush db modified voucher_id = Some voucher →
  modified !! voucher_id = Some voucher
  ∨ (modified !! voucher_id = None
     ∧ vouchers db !! voucher_id = Some voucher
     ∧ v_state voucher = "active").
Proof.
  unfold query_active_voucher. intros H.
  destruct (modified !! voucher_id) as [d|] eqn:Hm.
  - left. destruct autoflush.
    + rewrite (lookup_union_Some_l _ _ _ _ Hm) in H.
      case_bool_decide; by simplify_eq.
    + destruct (vouchers db !! voucher_id); [|done].
      case_bool_decide; by simplify_eq.
  - right. split; [done|]. destruct autoflush.
    + rewrite lookup_union_r in H by done.
      destruct (vouchers db !! voucher_id) as [row|]; [|done].
      case_bool_decide; by simplify_eq.
    + destruct (vouchers db !! voucher_id) as [row|]; [|done].
      case_bool_decide; by simplify_eq.
Qed.


Lemma redeem_leg_session_accounts autoflush env db merchant_id i voucher_id amount st :
  session_accounts db st →
  session_accounts db
    (redeem_leg autoflush env db merchant_id i voucher_id amount st).
Proof.
  intros [Hdirty Hclean].
  destruct (redeem_leg_cases autoflush env db merchant_id i voucher_id amount st)
    as [[_ ->]|(voucher & Hq & [[_ ->]|[(_ & _ & ->)|(_ & Hle & ->)]])];
    try done.
  assert (Hrow : ∃ row, vouchers db !! voucher_id = Some row
            ∧ v_state row = "active"
            ∧ v_plan_id voucher = v_plan_id row
            ∧ v_member_user_id voucher = v_member_user_id row
            ∧ v_merchant_list voucher = v_merchant_list row
            ∧ v_expires_at voucher = v_expires_at row
            ∧ v_amount voucher + redeemed_total voucher_id (added st)
              = v_amount row).
  { apply query_active_voucher_cases in Hq as [Hm|(Hm & Hrow & Hact)].
    - by apply Hdirty.
    - exists voucher. rewrite (Hclean _ Hm). repeat split; [done..|lia]. }
  destruct Hrow as (row & Hrow & Hact & Hp & Hu & Hml & He & Hsum).
  split; simpl.
  - intros k d Hk. destruct (decide (k = voucher_id)) as [->|Hne].
    + rewrite lookup_insert_eq in Hk. simplify_eq. exists row.
      rewrite redeemed_total_app, redeemed_total_singleton. simpl.
      rewrite bool_decide_eq_true_2 by done.
      repeat split; [done..|lia].
    + rewrite lookup_insert_ne in Hk by done.
      destruct (Hdirty k d Hk) as (row' & ? & ? & ? & ? & ? & ? & Hsum').
      exists row'. rewrite redeemed_total_app, redeemed_total_singleton. simpl.
      rewrite bool_decide_eq_false_2 by done.
      repeat split; [done..|lia].
  - intros k Hk. destruct (decide (k = voucher_id)) as [->|Hne].
    + by rewrite lookup_insert_eq in Hk.
    + rewrite lookup_insert_ne in Hk by done.
      rewrite redeemed_total_app, redeemed_total_singleton. simpl.
      rewrite bool_decide_eq_false_2 by done. rewrite (Hclean k Hk). lia.
Qed.

Lemma redeem_loop_session_accounts autoflush env db merchant_id i legs st :
  session_accounts db st →
  session_accounts db (redeem_loop autoflush env db merchant_id i legs st).
Proof.
  revert i st. induction legs as [|[v a] legs IH]; simpl; intros i st Hst; [done|].
  by apply IH, redeem_leg_session_accounts.
Qed.

Lemma redeem_start_session_accounts db : session_accounts db redeem_start.
Proof. split; [by intros k d Hk|done]. Qed.

(** What a route does to the tables of vouchers and redemptions: nothing,
    or the insertion of new vouchers, or the commit of a redeem batch. *)
Lemma call_next_vouchers env state_key req db :
  let db' := snd (call_next env state_key req db) in
  (vouchers db' = vouchers db ∧ voucher_redemptions db' = voucher_redemptions db)
  ∨ (voucher_redemptions db' = voucher_redemptions db
     ∧ ∃ rows, insert_keyed rows (vouchers db) = Some (vouchers db'))
  ∨ (∃ d, req_endpoint req = PostVouchersRedeem d
       ∧ let st :=
           redeem_loop SessionLocal_autoflush env db (rd_merchant_id d) 0
             (zip (rd_voucher_ids d) (rd_amounts d)) redeem_start in
         vouchers db' = dirty st ∪ vouchers db
         ∧ voucher_redemptions db' = voucher_redemptions db ++ added st).
Proof.
  unfold call_next. destruct (req_endpoint req) as [d|d|d|d|d|d|d] eqn:Hreq.
  - left. unfold create_plan. destruct (insert_keyed _ _); [|done].
    destruct (insert_rows _ _ _); [|done]. by respond_frame.
  - unfold mint_vouchers. destruct (plans db !! _); [|by left].
    case_bool_decide; [by left|].
    destruct (insert_keyed _ _) as [vs|] eqn:Hins; [|by left].
    right. left. respond_frame. simpl. split; [done|]. by eexists.
  - unfold redeem_vouchers, redeem_vouchers_with.
    case_bool_decide; [by left|]. unfold redeem_commit.
    destruct (insert_rows _ _ _) as [rs|] eqn:Hins; [|by left].
    apply insert_rows_Some in Hins. right. right. exists d. split; [done|].
    respond_frame. simpl. by split.
  - left. unfold create_mandates. destruct (plans db !! _); [|done].
    case_bool_decide; [done|]. destruct (insert_keyed _ _); [|done].
    by respond_frame.
  - left. unfold execute_mandate. destruct (_ || _); [done|].
    destruct (query_active_mandate _ _); [|done].
    destruct (_ >? _); [done|]. destruct (insert_rows _ _ _); [|done].
    by respond_frame.
  - left. unfold create_payment_intent. destruct (plans db !! _); [|done].
    case_bool_decide; [|done]. destruct (insert_transaction _ _); [|done].
    by respond_frame.
  - left. unfold confirm_payment.
    destruct (query_pending_transaction _ _); [|done].
    destruct (insert_rows _ _ _); [|done]. by respond_frame.
Qed.

(** One request, seen from a voucher of the table. *)
Lemma middleware_voucher_step env req db voucher_id v :
  vouchers db !! voucher_id = Some v →
  let db' := snd (idempotency_middleware env req db) in
  ∃ v', vouchers db' !! voucher_id = Some v'
    ∧ v_amount v' + redeemed_total voucher_id (voucher_redemptions db')
      = v_amount v + redeemed_total voucher_id (voucher_redemptions db)
    ∧ v_plan_id v' = v_plan_id v
    ∧ v_member_user_id v' = v_member_user_id v
    ∧ v_merchant_list v' = v_merchant_list v
    ∧ v_expires_at v' = v_expires_at v
    ∧ (v_state v ≠ "active" → v' = v).
Proof.
  intros Hv db'.
  assert (Hsame : ∃ v', vouchers db !! voucher_id = Some v'
    ∧ v_amount v' + redeemed_total voucher_id (voucher_redemptions db)
      = v_amount v + redeemed_total voucher_id (voucher_redemptions db)
    ∧ v_plan_id v' = v_plan_id v
    ∧ v_member_user_id v' = v_member_user_id v
    ∧ v_merchant_list v' = v_merchant_list v
    ∧ v_expires_at v' = v_expires_at v
    ∧ (v_state v ≠ "active" → v' = v)) by (exists v; by repeat split).
  assert (Hroute : ∀ state_key,
    let db' := snd (call_next env state_key req db) in
    ∃ v', vouchers db' !! voucher_id = Some v'
    ∧ v_amount v' + redeemed_total voucher_id (voucher_redemptions db')
      = v_amount v + redeemed_total voucher_id (voucher_redemptions db)
    ∧ v_plan_id v' = v_plan_id v
    ∧ v_member_user_id v' = v_member_user_id v
    ∧ v_merchant_list v' = v_merchant_list v
    ∧ v_expires_at v' = v_expires_at v
    ∧ (v_state v ≠ "active" → v' = v)).
  { intros state_key.
    destruct (call_next_vouchers env state_key req db)
      as [[Hvs Hrs]|[[Hrs [rows Hins]]|(d & _ & Hvs & Hrs)]]; simpl.
    - by rewrite Hvs, Hrs.
    - rewrite Hrs. exists v. split; [by eapply insert_keyed_lookup|].
      by repeat split.
    - rewrite Hvs, Hrs.
      set (st := redeem_loop SessionLocal_autoflush env db (rd_merchant_id d) 0
                   (zip (rd_voucher_ids d) (rd_amounts d)) redeem_start) in *.
      destruct (redeem_loop_session_accounts SessionLocal_autoflush env db
                  (rd_merchant_id d) 0 (zip (rd_voucher_ids d) (rd_amounts d))
                  redeem_start (redeem_start_session_accounts db))
        as [Hdirty Hclean].
      fold st in Hdirty, Hclean. rewrite redeemed_total_app.
      destruct (dirty st !! voucher_id) as [dv|] eqn:Hd.
      + destruct (Hdirty _ _ Hd) as (row & Hrow & Hact & ? & ? & ? & ? & Hsum).
        rewrite Hv in Hrow. simplify_eq. exists dv.
        split; [by apply lookup_union_Some_l|].
        repeat split; [lia|done..|]. intros Hna. by destruct Hna.
      + exists v. split; [by rewrite lookup_union_r|].
        rewrite (Hclean _ Hd). repeat split; [lia|done..]. }
  unfold db', idempotency_middleware. destruct (_ && _); [|apply Hroute].
  destruct (get_response _ _); [done|apply Hroute].
Qed.

Lemma serve_voucher reqs db voucher_id v :
  vouchers db !! voucher_id = Some v →
  ∃ v', vouchers (serve reqs db) !! voucher_id = Some v'
    ∧ v_amount v' + redeemed_total voucher_id (voucher_redemptions (serve reqs db))
      = v_amount v + redeemed_total voucher_id (voucher_redemptions db)
    ∧ v_plan_id v' = v_plan_id v
    ∧ v_member_user_id v' = v_member_user_id v
    ∧ v_merchant_list v' = v_merchant_list v
    ∧ v_expires_at v' = v_expires_at v
    ∧ (v_state v ≠ "active" → v' = v).
Proof.
  revert db v. induction reqs as [|[env req] reqs IH]; simpl; intros db v Hv.
  - exists v. by repeat split.
  - destruct (middleware_voucher_step env req db voucher_id v Hv)
      as (v1 & Hv1 & Hsum1 & Hp1 & Hu1 & Hm1 & He1 & Hf1).
    destruct (IH _ v1 Hv1) as (v2 & Hv2 & Hsum2 & Hp2 & Hu2 & Hm2 & He2 & Hf2).
    exists v2. split; [done|]. split; [lia|].
    split; [congruence|]. split; [congruence|]. split; [congruence|].
    split; [congruence|]. intros Hna.
    rewrite Hf2; rewrite (Hf1 Hna); done.
Qed.



(** ** Mandates over a sequence of requests *)

Lemma executed_total_app mandate_id es1 es2 :
  executed_total mandate_id (es1 ++ es2)
  = executed_total mandate_id es1 + executed_total mandate_id es2.
Proof.
  unfold executed_total. rewrite filter_app, fmap_app, foldr_app.
  generalize (me_amount <$> filter (λ e, me_mandate_id e = mandate_id
                                         ∧ me_status e = "success") es1) as l.
  induction l as [|a l IH]; simpl; lia.
Qed.

Lemma executed_total_singleton mandate_id e :
  executed_total mandate_id [e]
  = if bool_decide (me_mandate_id e = mandate_id ∧ me_status e = "success")
    then me_amount e else 0.
Proof.
  unfold executed_total. rewrite filter_cons, filter_nil.
  case_bool_decide; [rewrite decide_True by done|rewrite decide_False by done];
    simpl; lia.
Qed.

(** What a route does to the tables of mandates and executions: nothing,
    or the insertion of new mandates, or one execution, which debits the
    mandate when its outcome is success. *)
Lemma call_next_mandates env state_key req db :
  let db' := snd (call_next env state_key req db) in
  (mandates db' = mandates db ∧ mandate_executions db' = mandate_executions db)
  ∨ (mandate_executions db' = mandate_executions db
     ∧ ∃ rows, insert_keyed rows (mandates db) = Some (mandates db'))
  ∨ (∃ mandate_id mandate amount execution,
       query_active_mandate db mandate_id = Some mandate
       ∧ amount ≤ m_cap_amount mandate
       ∧ me_mandate_id execution = mandate_id
       ∧ me_amount execution = amount
       ∧ mandate_executions db' = mandate_executions db ++ [execution]
       ∧ ((me_status execution = "success"
           ∧ mandates db'
             = <[mandate_id := debit_mandate mandate amount]> (mandates db))
          ∨ (me_status execution = "failed" ∧ mandates db' = mandates db))).
Proof.
  unfold call_next. destruct (req_endpoint req) as [d|d|d|d|d|d|d].
  - left. unfold create_plan. destruct (insert_keyed _ _); [|done].
    destruct (insert_rows _ _ _); [|done]. by respond_frame.
  - left. unfold mint_vouchers. destruct (plans db !! _); [|done].
    case_bool_decide; [done|]. destruct (insert_keyed _ _); [|done].
    by respond_frame.
  - left. unfold redeem_vouchers, redeem_vouchers_with.
    case_bool_decide; [done|]. unfold redeem_commit.
    destruct (insert_rows _ _ _); [|done]. by respond_frame.
  - unfold create_mandates. destruct (plans db !! _); [|by left].
    case_bool_decide; [by left|].
    destruct (insert_keyed _ _) as [ms|] eqn:Hins; [|by left].
    right. left. respond_frame. simpl. split; [done|]. by eexists.
  - unfold execute_mandate. destruct (_ || _); [by left|].
    destruct (query_active_mandate _ _) as [mandate|] eqn:Hq; [|by left].
    destruct (Z.gtb_spec (default 0 (ed_amount d)) (m_cap_amount mandate))
      as [|Hle]; [by left|].
    destruct (insert_rows _ _ _) as [es|] eqn:Hins; [|by left].
    apply insert_rows_Some in Hins. right. right.
    exists (default "" (ed_mandate_id d)), mandate, (default 0 (ed_amount d)),
      {| me_id := uuid4 env 0%nat;
         me_mandate_id := default "" (ed_mandate_id d);
         me_amount := default 0 (ed_amount d);
         me_merchant_id := ed_merchant_id d;
         me_status := if random_choice env then "success" else "failed" |}.
    split; [exact Hq|]. split; [exact Hle|].
    respond_frame. simpl. split; [reflexivity|]. split; [reflexivity|].
    split; [exact Hins|].
    destruct (random_choice env); [left|right]; by split.
  - left. unfold create_payment_intent. destruct (plans db !! _); [|done].
    case_bool_decide; [|done]. destruct (insert_transaction _ _); [|done].
    by respond_frame.
  - left. unfold confirm_payment.
    destruct (query_pending_transaction _ _); [|done].
    destruct (insert_rows _ _ _); [|done]. by respond_frame.
Qed.

(** One request, seen from a mandate of the table. *)
Lemma middleware_mandate_account_step env req db mandate_id m :
  mandates db !! mandate_id = Some m →
  let db' := snd (idempotency_middleware env req db) in
  ∃ m', mandates db' !! mandate_id = Some m'
    ∧ m_cap_amount m' + executed_total mandate_id (mandate_executions db')
      = m_cap_amount m + executed_total mandate_id (mandate_executions db)
    ∧ m_plan_id m' = m_plan_id m
    ∧ m_member_user_id m' = m_member_user_id m
    ∧ m_valid_from m' = m_valid_from m
    ∧ m_valid_to m' = m_valid_to m
    ∧ (m_state m ≠ "active" → m' = m).
Proof.
  intros Hm db'.
  assert (Hroute : ∀ state_key,
    let db' := snd (call_next env state_key req db) in
    ∃ m', mandates db' !! mandate_id = Some m'
    ∧ m_cap_amount m' + executed_total mandate_id (mandate_executions db')
      = m_cap_amount m + executed_total mandate_id (mandate_executions db)
    ∧ m_plan_id m' = m_plan_id m
    ∧ m_member_user_id m' = m_member_user_id m
    ∧ m_valid_from m' = m_valid_from m
    ∧ m_valid_to m' = m_valid_to m
    ∧ (m_state m ≠ "active" → m' = m)).
  { intros state_key.
    destruct (call_next_mandates env state_key req db)
      as [[Hms Hes]|[[Hes [rows Hins]]
          |(mid & mandate & amount & e & Hq & Hle & Hmid & Hamt & Hes
            & [[Hst Hms]|[Hst Hms]])]]; simpl.
    - rewrite Hms, Hes. exists m. by repeat split.
    - rewrite Hes. exists m. split; [by eapply insert_keyed_lookup|].
      by repeat split.
    - rewrite Hms, Hes, executed_total_app, executed_total_singleton.
      apply query_active_mandate_Some in Hq as [Hmandate Hact].
      destruct (decide (mid = mandate_id)) as [->|Hne].
      + rewrite lookup_insert_eq. rewrite Hm in Hmandate.
        injection Hmandate as <-. subst amount.
        exists (debit_mandate m (me_amount e)).
        rewrite bool_decide_eq_true_2 by done. simpl.
        repeat split; [lia|]. intros Hna. by destruct Hna.
      + rewrite lookup_insert_ne by done. exists m.
        rewrite bool_decide_eq_false_2 by (intros [? _]; congruence).
        repeat split; [done|lia].
    - rewrite Hms, Hes, executed_total_app, executed_total_singleton.
      exists m. rewrite bool_decide_eq_false_2
        by (intros [_ Hs]; rewrite Hst in Hs; discriminate Hs).
      repeat split; [done|lia]. }
  unfold db', idempotency_middleware. destruct (_ && _); [|apply Hroute].
  destruct (get_response _ _); [|apply Hroute].
  exists m. by repeat split.
Qed.

Lemma serve_mandate_account reqs db mandate_id m :
  mandates db !! mandate_id = Some m →
  ∃ m', mandates (serve reqs db) !! mandate_id = Some m'
    ∧ m_cap_amount m' + executed_total mandate_id (mandate_executions (serve reqs db))
      = m_cap_amount m + executed_total mandate_id (mandate_executions db)
    ∧ m_plan_id m' = m_plan_id m
    ∧ m_member_user_id m' = m_member_user_id m
    ∧ m_valid_from m' = m_valid_from m
    ∧ m_valid_to m' = m_valid_to m
    ∧ (m_state m ≠ "active" → m' = m).
Proof.
  revert db m. induction reqs as [|[env req] reqs IH]; simpl; intros db m Hm.
  - exists m. by repeat split.
  - destruct (middleware_mandate_account_step env req db mandate_id m Hm)
      as (m1 & Hm1 & Hsum1 & Hp1 & Hu1 & Hf1 & Ht1 & Hz1).
    destruct (IH _ m1 Hm1) as (m2 & Hm2 & Hsum2 & Hp2 & Hu2 & Hf2 & Ht2 & Hz2).
    exists m2. split; [done|]. split; [lia|].
    split; [congruence|]. split; [congruence|]. split; [congruence|].
    split; [congruence|]. intros Hna.
    rewrite Hz2; rewrite (Hz1 Hna); done.
Qed.

(** X8. Mandate conservation: whatever requests are served, a mandate of
    the table stays in the table, with the plan, member and validity
    interval it had, and its remaining cap plus the amounts of its
    execution rows with outcome success stays what it was; execution
    rows with outcome failed take nothing from the cap. *)
Theorem mandate_cap_is_accounted_for (db : DB) (reqs : list (Env * Request))
    (mandate_id : string) (m : Mandate) :
  mandates db !! mandate_id = Some m →
  ∃ m', mandates (serve reqs db) !! mandate_id = Some m'
    ∧ m_cap_amount m' + executed_total mandate_id (mandate_executions (serve reqs db))
      = m_cap_amount m + executed_total mandate_id (mandate_executions db)
    ∧ m_plan_id m' = m_plan_id m
    ∧ m_member_user_id m' = m_member_user_id m
    ∧ m_valid_from m' = m_valid_from m
    ∧ m_valid_to m' = m_valid_to m.
Proof.
  intros Hm.
  destruct (serve_mandate_account reqs db mandate_id m Hm)
    as (m' & Hm' & Hsum & Hp & Hu & Hf & Ht & _).
  exists m'. by repeat split.
Qed.

Lemma mandate_cap_is_accounted_for_witness :
  let reqs :=
    [ (demo_env "execution-a-" 1000 true,
       demo_request None (PostMandatesExecute (demo_execute "mandate-0" 4000)));
      (demo_env "execution-b-" 1001 false,
       demo_request None (PostMandatesExecute (demo_execute "mandate-0" 3000))) ] in
  ∃ m', mandates (serve reqs mandated_db) !! "mandate-0" = Some m'
    ∧ m_cap_amount m'
      + executed_total "mandate-0" (mandate_executions (serve reqs mandated_db))
      = 10000
    ∧ m_cap_amount m' = 6000
    ∧ length (mandate_executions (serve reqs mandated_db)) = 2%nat.
Proof.
  intros reqs.
  destruct (mandate_cap_is_accounted_for mandated_db reqs "mandate-0"
              {| m_plan_id := "plan-demo-1"; m_member_user_id := "user-2";
                 m_cap_amount := 10000; m_valid_from := 100;
                 m_valid_to := 2000; m_state := "active" |})
    as (m' & Hm' & Hsum & _).
  - vm_compute. reflexivity.
  - exists m'. split; [exact Hm'|]. split; [exact Hsum|].
    vm_compute in Hm'. injection Hm' as <-. split; reflexivity.
Defined.

(** X9. A voucher or a mandate whose state is not "active" (redeemed,
    expired, cancelled) is never changed again, whatever requests are
    served. *)
Theorem inactive_rows_are_frozen (db : DB) (reqs : list (Env * Request))
    (id : string) :
  (∀ v, vouchers db !! id = Some v → v_state v ≠ "active" →
        vouchers (serve reqs db) !! id = Some v)
  ∧ (∀ m, mandates db !! id = Some m → m_state m ≠ "active" →
          mandates (serve reqs db) !! id = Some m).
Proof.
  split.
  - intros v Hv Hna.
    destruct (serve_voucher reqs db id v Hv) as (v' & Hv' & _ & _ & _ & _ & _ & Hf).
    by rewrite Hv', (Hf Hna).
  - intros m Hm Hna.
    destruct (serve_mandate_account reqs db id m Hm)
      as (m' & Hm' & _ & _ & _ & _ & _ & Hf).
    by rewrite Hm', (Hf Hna).
Qed.

Lemma inactive_rows_are_frozen_witness :
  let db :=
    serve [ (demo_env "redemption-a-" 1000 true,
             demo_request None
               (PostVouchersRedeem (demo_redeem [("voucher-0", 10000)]))) ]
      minted_db in
  let later :=
    [ (demo_env "redemption-b-" 1001 true,
       demo_request None
         (PostVouchersRedeem (demo_redeem [("voucher-0", -500)]))) ] in
  (λ v, (v_amount v, v_state v)) <$> vouchers (serve later db) !! "voucher-0"
  = Some (0, "redeemed").
Proof.
  intros db later.
  rewrite (proj1 (inactive_rows_are_frozen db later "voucher-0")
             {| v_plan_id := "plan-demo-1"; v_member_user_id := "user-1";
                v_amount := 0; v_merchant_list := [];
                v_expires_at := 2000; v_state := "redeemed" |}).
  - reflexivity.
  - vm_compute. reflexivity.
  - discriminate.
Defined.

(** ** The state of a voucher and its balance *)

Lemma debit_voucher_ok voucher amount :
  v_state voucher = "active" → voucher_ok voucher →
  amount ≤ v_amount voucher →
  voucher_ok (debit_voucher voucher amount).
Proof.
  intros Hact [[_ Hpos]|[Hred _]] Hle; [|congruence].
  destruct (debit_voucher_state voucher amount Hle) as [Hnn Hst].
  unfold voucher_ok. rewrite Hst. simpl in *.
  case_bool_decide; [right|left]; (split; [done|lia]).
Qed.

Lemma NoDup_fst_zip {A B} (l1 : list A) (l2 : list B) :
  NoDup l1 → NoDup (zip l1 l2).*1.
Proof.
  revert l2. induction l1 as [|x l1 IH]; intros [|y l2] Hnd; simpl;
    try apply NoDup_nil_2.
  apply NoDup_cons in Hnd as [Hx Hnd]. apply NoDup_cons. split; [|by apply IH].
  intros Hin. apply Hx. clear -Hin. revert l2 Hin.
  induction l1 as [|a l1 IH]; intros [|b l2] Hin; simpl in *;
    try by apply elem_of_nil in Hin.
  apply elem_of_cons in Hin as [->|Hin]; apply elem_of_cons; [by left|right].
  by eapply IH.
Qed.

(** The vouchers a batch has modified are among those its earlier legs
    name, and each is in order if its committed row was. *)
Lemma redeem_loop_voucher_ok autoflush env db merchant_id i legs st seen :
  autoflush = true ∨ NoDup (seen ++ legs.*1) →
  (∀ k, is_Some (dirty st !! k) → k ∈ seen) →
  (∀ k d v, dirty st !! k = Some d → vouchers db !! k = Some v →
            voucher_ok v → voucher_ok d) →
  ∀ k d v,
    dirty (redeem_loop autoflush env db merchant_id i legs st) !! k = Some d →
    vouchers db !! k = Some v → voucher_ok v → voucher_ok d.
Proof.
  revert i st seen.
  induction legs as [|[voucher_id amount] legs IH]; simpl;
    intros i st seen Hmode Hseen Hok; [done|].
  apply (IH (S i) _ (seen ++ [voucher_id])).
  - destruct Hmode as [?|Hnd]; [by left|right]. by rewrite <- app_assoc.
  - intros k Hk.
    destruct (redeem_leg_cases autoflush env db merchant_id i voucher_id amount st)
      as [[_ Hst]|(voucher & _ & [[_ Hst]|[(_ & _ & Hst)|(_ & _ & Hst)]])];
      rewrite Hst in Hk; simpl in Hk;
      try (apply elem_of_app; left; by apply Hseen).
    destruct (decide (k = voucher_id)) as [->|Hne].
    + apply elem_of_app. right. by apply list_elem_of_singleton.
    + rewrite lookup_insert_ne in Hk by done.
      apply elem_of_app. left. by apply Hseen.
  - intros k d v Hk Hv Hvok.
    destruct (redeem_leg_cases autoflush env db merchant_id i voucher_id amount st)
      as [[_ Hst]|(voucher & Hq & [[_ Hst]|[(_ & _ & Hst)|(_ & Hle & Hst)]])];
      rewrite Hst in Hk; simpl in Hk; try by eapply Hok.
    destruct (decide (k = voucher_id)) as [->|Hne];
      [|rewrite lookup_insert_ne in Hk by done; by eapply Hok].
    rewrite lookup_insert_eq in Hk. injection Hk as <-.
    pose proof (query_active_voucher_state _ _ _ _ _ Hq) as Hstate.
    apply query_active_voucher_cases in Hq as [Hm|(Hm & Hrow & Hact)].
    + assert (Hactive : v_state voucher = "active").
      { destruct Hstate as [?|[-> _]]; [done|].
        destruct Hmode as [?|Hnd]; [done|]. exfalso.
        apply NoDup_app in Hnd as (_ & Hdisj & _).
        apply (Hdisj voucher_id); [by apply Hseen|]. apply elem_of_cons. by left. }
      apply debit_voucher_ok; [done| |done]. by eapply Hok.
    + rewrite Hv in Hrow. injection Hrow as <-.
      by apply debit_voucher_ok.
Qed.

Lemma middleware_voucher_ok env req db voucher_id v :
  vouchers db !! voucher_id = Some v → voucher_ok v → distinct_redeem req →
  ∃ v', vouchers (snd (idempotency_middleware env req db)) !! voucher_id = Some v'
        ∧ voucher_ok v'.
Proof.
  intros Hv Hok Hdistinct.
  assert (Hroute : ∀ state_key,
    ∃ v', vouchers (snd (call_next env state_key req db)) !! voucher_id = Some v'
          ∧ voucher_ok v').
  { intros state_key.
    destruct (call_next_vouchers env state_key req db)
      as [[Hvs _]|[[_ [rows Hins]]|(d & Hreq & Hvs & _)]]; simpl.
    - rewrite Hvs. by exists v.
    - exists v. split; [by eapply insert_keyed_lookup|done].
    - rewrite Hvs. unfold distinct_redeem in Hdistinct. rewrite Hreq in Hdistinct.
      set (st := redeem_loop SessionLocal_autoflush env db (rd_merchant_id d) 0
                   (zip (rd_voucher_ids d) (rd_amounts d)) redeem_start).
      destruct (dirty st !! voucher_id) as [dv|] eqn:Hd.
      + exists dv. split; [by apply lookup_union_Some_l|].
        eapply (redeem_loop_voucher_ok SessionLocal_autoflush env db
                  (rd_merchant_id d) 0 (zip (rd_voucher_ids d) (rd_amounts d))
                  redeem_start []); [| | |exact Hd|exact Hv|exact Hok].
        * right. simpl. by apply NoDup_fst_zip.
        * intros k [? Hk]. simpl in Hk. by rewrite lookup_empty in Hk.
        * intros k d0 v0 Hk. simpl in Hk. by rewrite lookup_empty in Hk.
      + exists v. split; [by rewrite lookup_union_r|done]. }
  unfold idempotency_middleware. destruct (_ && _); [|apply Hroute].
  destruct (get_response _ _); [|apply Hroute]. by exists v.
Qed.

(** X10. A voucher whose state agrees with its balance (active with a
    positive balance, or redeemed with balance 0) stays so under any
    sequence of requests in which no redeem batch names a voucher twice:
    a redeemed voucher has balance 0 and an active one a positive
    balance. *)
Theorem voucher_state_agrees_with_balance (db : DB)
    (reqs : list (Env * Request)) (voucher_id : string) (v : Voucher) :
  vouchers db !! voucher_id = Some v →
  voucher_ok v →
  Forall (λ er, distinct_redeem er.2) reqs →
  ∃ v', vouchers (serve reqs db) !! voucher_id = Some v'
    ∧ (v_state v' = "redeemed" ↔ v_amount v' = 0)
    ∧ (v_state v' = "active" ↔ 0 < v_amount v').
Proof.
  revert db v. induction reqs as [|[env req] reqs IH]; simpl;
    intros db v Hv Hok Hreqs.
  - exists v. split; [done|].
    destruct Hok as [[Hs Hc]|[Hs Hc]]; rewrite Hs; split; split;
      intros H; try done; try lia.
  - apply Forall_cons in Hreqs as [Hreq Hreqs].
    destruct (middleware_voucher_ok env req db voucher_id v Hv Hok Hreq)
      as (v1 & Hv1 & Hok1).
    by apply (IH _ v1).
Qed.

Lemma voucher_state_agrees_with_balance_witness :
  let reqs :=
    [ (demo_env "redemption-a-" 1000 true,
       demo_request None
         (PostVouchersRedeem
            (demo_redeem [("voucher-0", 2500); ("voucher-1", 10000)])));
      (demo_env "redemption-b-" 1001 true,
       demo_request None
         (PostVouchersRedeem (demo_redeem [("voucher-1", -500)]))) ] in
  ∃ v', vouchers (serve reqs minted_db) !! "voucher-1" = Some v'
    ∧ (v_state v' = "redeemed" ↔ v_amount v' = 0)
    ∧ v_amount v' = 0.
Proof.
  intros reqs.
  destruct (voucher_state_agrees_with_balance minted_db reqs "voucher-1"
              {| v_plan_id := "plan-demo-1"; v_member_user_id := "user-2";
                 v_amount := 10000; v_merchant_list := [];
                 v_expires_at := 2000; v_state := "active" |})
    as (v' & Hv' & Hred & _).
  - vm_compute. reflexivity.
  - left. split; [reflexivity|]. simpl. lia.
  - apply Forall_cons. split; [unfold distinct_redeem; simpl; compute_done|].
    apply Forall_cons. split; [unfold distinct_redeem; simpl; compute_done|].
    apply Forall_nil_2.
  - exists v'. split; [exact Hv'|]. split; [exact Hred|].
    vm_compute in Hv'. injection Hv' as <-. reflexivity.
Defined.

(** ** Plans: access and ownership *)

Lemma plan_member_rows_spec env us plan_id member_ids n :
  pm_user_id <$> plan_member_rows env us plan_id member_ids n
    = filter (λ u, u ∈ us) member_ids
  ∧ Forall (λ row, pm_plan_id row = plan_id ∧ pm_state row = "active")
      (plan_member_rows env us plan_id member_ids n).
Proof.
  revert n. induction member_ids as [|u rest IH]; intros n; [done|].
  cbn [plan_member_rows]. rewrite filter_cons. case_bool_decide as Hu.
  - rewrite decide_True by done. rewrite fmap_cons.
    destruct (IH (S n)) as [Heq ?]. rewrite Heq.
    split; [done|]. by apply Forall_cons.
  - rewrite decide_False by done. apply IH.
Qed.

Lemma find_app_all_false {A} (f : A → bool) (l1 l2 : list A) :
  Forall (λ x, f x = false) l2 → List.find f (l1 ++ l2) = List.find f l1.
Proof.
  intros H. induction l1 as [|a l1 IH]; simpl.
  - apply find_none_all. intros x Hx. by eapply Forall_forall in H.
  - by destruct (f a).
Qed.

Lemma query_active_member_None db plan_id u :
  query_active_member db plan_id u = None
  ↔ ∀ row, row ∈ plan_members db →
      ¬ (pm_plan_id row = plan_id ∧ pm_user_id row = u ∧ pm_state row = "active").
Proof.
  unfold query_active_member. split.
  - intros Hnone row Hin (Hp & Hu & Hs).
    eapply find_none in Hnone; [|by apply list_elem_of_In].
    by rewrite !bool_decide_eq_true_2 in Hnone.
  - intros Hall. apply find_none_all. intros row Hin.
    rewrite !andb_false_iff, !bool_decide_eq_false.
    destruct (decide (pm_plan_id row = plan_id)); [|tauto].
    destruct (decide (pm_user_id row = u)); [|tauto].
    destruct (decide (pm_state row = "active")); [|tauto].
    by destruct (Hall row Hin).
Qed.

(** Only [create_plan] writes to the tables of plans and members, and
    what it adds belongs to the plan it has just inserted. *)
Lemma call_next_plans env state_key req db :
  let db' := snd (call_next env state_key req db) in
  (plans db' = plans db ∧ plan_members db' = plan_members db)
  ∨ ∃ plan rows, plans db !! uuid4 env 0 = None
      ∧ plans db' = <[uuid4 env 0%nat := plan]> (plans db)
      ∧ plan_members db' = plan_members db ++ rows
      ∧ Forall (λ row, pm_plan_id row = uuid4 env 0) rows.
Proof.
  unfold call_next. destruct (req_endpoint req) as [d|d|d|d|d|d|d].
  - unfold create_plan. cbn [insert_keyed].
    destruct (plans db !! uuid4 env 0) eqn:Hk; [by left|].
    destruct (insert_rows _ _ _) as [pms|] eqn:Hins; [|by left].
    apply insert_rows_Some in Hins. right. eexists _, _. respond_frame. simpl.
    split; [done|]. split; [done|]. split; [exact Hins|].
    apply Forall_app. split.
    + eapply Forall_impl; [apply plan_member_rows_spec|]. by intros ? [? _].
    + case_bool_decide; [apply Forall_nil_2|]. by apply Forall_cons.
  - left. unfold mint_vouchers. destruct (plans db !! _); [|done].
    case_bool_decide; [done|]. destruct (insert_keyed _ _); [|done].
    by respond_frame.
  - left. unfold redeem_vouchers, redeem_vouchers_with.
    case_bool_decide; [done|]. unfold redeem_commit.
    destruct (insert_rows _ _ _); [|done]. by respond_frame.
  - left. unfold create_mandates. destruct (plans db !! _); [|done].
    case_bool_decide; [done|]. destruct (insert_keyed _ _); [|done].
    by respond_frame.
  - left. unfold execute_mandate. destruct (_ || _); [done|].
    destruct (query_active_mandate _ _); [|done].
    destruct (_ >? _); [done|]. destruct (insert_rows _ _ _); [|done].
    by respond_frame.
  - left. unfold create_payment_intent. destruct (plans db !! _); [|done].
    case_bool_decide; [|done]. destruct (insert_transaction _ _); [|done].
    by respond_frame.
  - left. unfold confirm_payment.
    destruct (query_pending_transaction _ _); [|done].
    destruct (insert_rows _ _ _); [|done]. by respond_frame.
Qed.

Lemma middleware_plan_step env req db plan_id plan u :
  plans db !! plan_id = Some plan →
  let db' := snd (idempotency_middleware env req db) in
  plans db' !! plan_id = Some plan
  ∧ query_active_member db' plan_id u = query_active_member db plan_id u.
Proof.
  intros Hplan db'.
  assert (Hroute : ∀ state_key,
    plans (snd (call_next env state_key req db)) !! plan_id = Some plan
    ∧ query_active_member (snd (call_next env state_key req db)) plan_id u
      = query_active_member db plan_id u).
  { intros state_key.
    destruct (call_next_plans env state_key req db)
      as [[Hps Hms]|(p & rows & Hnew & Hps & Hms & Hrows)]; simpl in *.
    - unfold query_active_member. by rewrite Hps, Hms.
    - assert (Hne : uuid4 env 0 ≠ plan_id) by (intros <-; congruence).
      rewrite Hps, lookup_insert_ne by done. split; [done|].
      unfold query_active_member. rewrite Hms. apply find_app_all_false.
      eapply Forall_impl; [exact Hrows|]. intros row Hrow. simpl in *.
      rewrite (bool_decide_eq_false_2 (pm_plan_id row = plan_id)); [done|].
      congruence. }
  unfold db', idempotency_middleware. destruct (_ && _); [|apply Hroute].
  destruct (get_response _ _); [done|apply Hroute].
Qed.

(** No request changes a plan, or who its active members are. *)
Lemma serve_plan reqs db plan_id plan u :
  plans db !! plan_id = Some plan →
  plans (serve reqs db) !! plan_id = Some plan
  ∧ query_active_member (serve reqs db) plan_id u
    = query_active_member db plan_id u.
Proof.
  revert db. induction reqs as [|[env req] reqs IH]; simpl; intros db Hplan;
    [done|].
  destruct (middleware_plan_step env req db plan_id plan u Hplan) as [Hp Hq].
  destruct (IH _ Hp) as [Hp' Hq']. split; [done|]. by rewrite Hq', Hq.
Qed.

(** X11. After [create_plan] has returned a plan, and whatever requests
    are served afterwards, [get_plan] gives the plan to its creator and to
    every listed member id that is a known user, and answers 403 to
    everybody else; the members reported are the known listed ids in list
    order, followed by the creator unless listed. *)
Theorem plan_access_after_create (env : Env) (state_key : option string)
    (creator : string) (d : PlanCreate) (db db1 : DB) (plan_id : string)
    (plan : Plan) (members : list string) (later : list (Env * Request))
    (u : string) :
  create_plan env state_key creator d db
    = (Ok (PlanCreated (plan_id, plan) members), db1) →
  members_reference_plans db →
  members = filter (λ m, m ∈ users db) (pc_member_ids d)
              ++ (if bool_decide (creator ∈ pc_member_ids d) then [] else [creator])
  ∧ get_plan (serve later db1) u plan_id
    = if bool_decide (u = creator ∨ (u ∈ pc_member_ids d ∧ u ∈ users db))
      then Ok (plan_id, plan)
      else Raise (HTTPException 403 "Access denied").
Proof.
  intros Hcreate Hfk. unfold create_plan in Hcreate. cbn [insert_keyed] in Hcreate.
  destruct (plans db !! uuid4 env 0) eqn:Hnew; [done|].
  destruct (insert_rows _ _ _) as [pms|] eqn:Hins; [|done].
  apply insert_rows_Some in Hins.
  match type of Hcreate with
  | respond ?e ?n ?k ?r ?dbc = _ =>
      destruct (respond_db e n k r dbc) as [rs Hrs];
      destruct (respond_result e n k r dbc) as [Hok|[Herr _]];
      rewrite Hcreate in *; simpl in Hrs; [|done]
  end.
  simpl in Hok. injection Hok as -> -> ->.
  destruct (plan_member_rows_spec env (users db) (uuid4 env 0) (pc_member_ids d) 1)
    as [Husers Hrows].
  set (member_rows :=
         plan_member_rows env (users db) (uuid4 env 0) (pc_member_ids d) 1) in *.
  split.
  { rewrite fmap_app, Husers. f_equal. by case_bool_decide. }
  assert (Hplan : plans db1 !! uuid4 env 0 = Some
            {| plan_name := pc_name d; plan_cap_per_head := pc_cap_per_head d;
               plan_window_start := pc_window_start d;
               plan_window_end := pc_window_end d;
               plan_merchant_whitelist := pc_merchant_whitelist d;
               plan_status := "active"; plan_created_by := creator |}).
  { rewrite Hrs. simpl. by rewrite lookup_insert_eq. }
  destruct (serve_plan later db1 _ _ u Hplan) as [Hp Hq].
  unfold get_plan. rewrite Hp, Hq. simpl.
  assert (Hmember : query_active_member db1 (uuid4 env 0) u = None
                    ↔ ¬ (u ∈ pc_member_ids d ∧ u ∈ users db)
                      ∧ (u = creator → creator ∈ pc_member_ids d)).
  { rewrite query_active_member_None, Hrs. simpl. rewrite Hins. split.
    - intros Hall. split.
      + intros [Hin Hknown].
        assert (Hu : u ∈ pm_user_id <$> member_rows).
        { rewrite Husers. by apply list_elem_of_filter. }
        apply list_elem_of_fmap in Hu as (row & -> & Hrow).
        apply (Hall row).
        * apply elem_of_app. right. apply elem_of_app. by left.
        * eapply Forall_forall in Hrows; [|exact Hrow]. tauto.
      + intros ->. destruct (decide (creator ∈ pc_member_ids d)) as [|Hno]; [done|].
        exfalso. rewrite (bool_decide_eq_false_2 _ Hno) in Hall.
        eapply Hall;
          [apply elem_of_app; right; apply elem_of_app; right;
           by apply list_elem_of_singleton|done].
    - intros [Hnot Hcreator] row Hin (Hp' & Hu & Hs).
      apply elem_of_app in Hin as [Hin|Hin].
      + eapply Forall_forall in Hfk; [|exact Hin]. simpl in Hfk.
        rewrite Hp', Hnew in Hfk. by destruct Hfk.
      + apply elem_of_app in Hin as [Hin|Hin].
        * apply Hnot.
          assert (Hu' : u ∈ pm_user_id <$> member_rows).
          { rewrite <- Hu. by apply list_elem_of_fmap_2. }
          rewrite Husers in Hu'. apply list_elem_of_filter in Hu'. tauto.
        * case_bool_decide as Hc; [by apply elem_of_nil in Hin|].
          apply list_elem_of_singleton in Hin. subst row. simpl in Hu.
          apply Hc, Hcreator. done. }
  destruct (bool_decide (query_active_member db1 (uuid4 env 0) u = None))
    eqn:Hnone; simpl.
  - apply bool_decide_eq_true in Hnone. apply Hmember in Hnone as [Hnot Hcreator].
    destruct (decide (creator = u)) as [->|Hne].
    + rewrite (bool_decide_eq_false_2 (u ≠ u)) by tauto.
      rewrite bool_decide_eq_true_2; [done|]. by left.
    + rewrite (bool_decide_eq_true_2 (creator ≠ u)) by done.
      rewrite bool_decide_eq_false_2; [done|]. intros [->|?]; tauto.
  - apply bool_decide_eq_false in Hnone.
    rewrite bool_decide_eq_true_2; [done|].
    destruct (decide (u = creator)) as [|Hne]; [by left|right].
    destruct (decide (u ∈ pc_member_ids d ∧ u ∈ users db)) as [|Hno]; [done|].
    exfalso. apply Hnone, Hmember. split; [done|]. by intros ?.
Qed.

Lemma plan_access_after_create_witness :
  let db1 :=
    snd (create_plan (demo_env "plan-" 1000 true) None "user-1"
           demo_plan_create seeded_db) in
  let later :=
    [ (demo_env "other-" 1001 true,
       demo_request None (PostPlans demo_plan_create)) ] in
  get_plan (serve later db1) "user-3" "plan-0"
    = get_plan (serve later db1) "user-1" "plan-0"
  ∧ get_plan (serve later db1) "user-9" "plan-0"
    = Raise (HTTPException 403 "Access denied").
Proof.
  intros db1 later.
  assert (Hcreate :
    create_plan (demo_env "plan-" 1000 true) None "user-1" demo_plan_create
      seeded_db = (Ok demo_plan_created, db1)) by (vm_compute; reflexivity).
  assert (Hfk : members_reference_plans seeded_db) by apply Forall_nil_2.
  split.
  - destruct (plan_access_after_create _ _ _ _ _ _ _ _ _ later "user-3"
                Hcreate Hfk) as [_ ->].
    destruct (plan_access_after_create _ _ _ _ _ _ _ _ _ later "user-1"
                Hcreate Hfk) as [_ ->].
    reflexivity.
  - destruct (plan_access_after_create _ _ _ _ _ _ _ _ _ later "user-9"
                Hcreate Hfk) as [_ ->].
    reflexivity.
Defined.

(** X12. The owner of a plan never changes, and only the owner can mint
    vouchers or create mandates for it: after any requests, both routes
    answer every other user with 403 and leave the database as it is. *)
Theorem only_creator_mints_and_creates_mandates (db : DB) (plan_id : string)
    (plan : Plan) (later : list (Env * Request)) (env : Env)
    (state_key : option string) (u : string) :
  plans db !! plan_id = Some plan →
  u ≠ plan_created_by plan →
  let db' := serve later db in
  (∀ d, vc_plan_id d = plan_id →
     mint_vouchers env state_key u d db'
     = (Raise (HTTPException 403 "Only plan creator can mint vouchers"), db'))
  ∧ (∀ d, mc_plan_id d = plan_id →
       create_mandates env state_key u d db'
       = (Raise (HTTPException 403 "Only plan creator can create mandates"), db')).
Proof.
  intros Hplan Hu db'.
  destruct (serve_plan later db plan_id plan u Hplan) as [Hp _]. fold db' in Hp.
  split; intros d <-.
  - unfold mint_vouchers. rewrite Hp. by rewrite bool_decide_eq_true_2.
  - unfold create_mandates. rewrite Hp. by rewrite bool_decide_eq_true_2.
Qed.

Lemma only_creator_mints_and_creates_mandates_witness :
  let db' := serve demo_payment seeded_db in
  mint_vouchers (demo_env "voucher-" 1000 true) None "user-2"
    (demo_mint ["user-2"]) db'
  = (Raise (HTTPException 403 "Only plan creator can mint vouchers"), db').
Proof.
  intros db'.
  apply (only_creator_mints_and_creates_mandates seeded_db "plan-demo-1"
           demo_plan demo_payment (demo_env "voucher-" 1000 true) None "user-2");
    [vm_compute; reflexivity|simpl; congruence|reflexivity].
Defined.

(** X13. The plans [get_user_plans] lists for a user are exactly the
    plans [get_plan] lets the user read. *)
Theorem listed_plans_are_the_readable_ones (db : DB) (u plan_id : string)
    (plan : Plan) :
  (plan_id, plan) ∈ get_user_plans db u
  ↔ get_plan db u plan_id = Ok (plan_id, plan).
Proof.
  unfold get_user_plans, get_plan.
  rewrite list_elem_of_filter, elem_of_map_to_list. simpl.
  assert (Hmember : plan_id ∈ pm_plan_id
             <$> filter (λ row, pm_user_id row = u ∧ pm_state row = "active")
                   (plan_members db)
           ↔ query_active_member db plan_id u ≠ None).
  { rewrite query_active_member_None. split.
    - intros Hin Hall. apply list_elem_of_fmap in Hin as (row & -> & Hrow).
      apply list_elem_of_filter in Hrow as [[? ?] Hrow]. by apply (Hall row).
    - intros Hsome.
      destruct (decide (plan_id ∈ pm_plan_id
                  <$> filter (λ row, pm_user_id row = u ∧ pm_state row = "active")
                        (plan_members db))) as [|Hno]; [done|].
      exfalso. apply Hsome. intros row Hrow (<- & ? & ?). apply Hno.
      apply list_elem_of_fmap_2. by apply list_elem_of_filter. }
  rewrite Hmember. split.
  - intros [Hacc ->]. destruct Hacc as [Hc|Hm].
    + rewrite (bool_decide_eq_false_2 (plan_created_by plan ≠ u)) by tauto.
      by rewrite andb_false_r.
    + by rewrite (bool_decide_eq_false_2 _ Hm).
  - destruct (plans db !! plan_id) as [p|]; [|done].
    case_bool_decide as Hnone; simpl.
    + case_bool_decide as Hc; [done|]. intros [= ->]. split; [|done].
      left. by destruct (decide (plan_created_by plan = u)).
    + intros [= ->]. split; [by right|done].
Qed.

(** ** Listing the vouchers and the mandates of a plan *)

Lemma insert_keyed_to_list {A} (rows : list (string * A)) (t t' : gmap string A) :
  insert_keyed rows t = Some t' → map_to_list t' ≡ₚ map_to_list t ++ rows.
Proof.
  revert t. induction rows as [|[k r] rows IH]; simpl; intros t Hins.
  - injection Hins as <-. by rewrite app_nil_r.
  - destruct (t !! k) eqn:Hk; [done|]. rewrite (IH _ Hins).
    rewrite (map_to_list_insert t k r Hk). simpl.
    by rewrite Permutation_middle.
Qed.

Lemma filter_all {A} (P : A → Prop) `{∀ x, Decision (P x)} (l : list A) :
  Forall P l → filter P l = l.
Proof.
  induction 1 as [|x l Hx Hl IH]; [done|].
  by rewrite filter_cons, decide_True, IH.
Qed.

Lemma filter_none {A} (P : A → Prop) `{∀ x, Decision (P x)} (l : list A) :
  Forall (λ x, ¬ P x) l → filter P l = [].
Proof.
  induction 1 as [|x l Hx Hl IH]; [done|].
  by rewrite filter_cons, decide_False, IH.
Qed.

(** X14. After a successful mint, the vouchers [get_plan_vouchers] lists
    for the plan of the request are those it listed before together with
    the minted ones, and the list of every other plan has the same
    vouchers as before; likewise for [get_plan_mandates] after
    [create_mandates].  (The queries have no ORDER BY: the lists are
    compared up to their order.) *)
Theorem listing_after_mint_and_create :
  (∀ env state_key u d db vs db' plan_id,
     mint_vouchers env state_key u d db = (Ok (VouchersMinted vs), db') →
     is_Some (plans db !! plan_id) →
     ∃ before after,
       get_plan_vouchers db plan_id = Ok before
       ∧ get_plan_vouchers db' plan_id = Ok after
       ∧ after ≡ₚ before ++ (if bool_decide (plan_id = vc_plan_id d) then vs else []))
  ∧ (∀ env state_key u d db ms db' plan_id,
       create_mandates env state_key u d db = (Ok (MandatesCreated ms), db') →
       is_Some (plans db !! plan_id) →
       ∃ before after,
         get_plan_mandates db plan_id = Ok before
         ∧ get_plan_mandates db' plan_id = Ok after
         ∧ after ≡ₚ before ++ (if bool_decide (plan_id = mc_plan_id d) then ms else [])).
Proof.
  split.
  - intros env state_key u d db vs db' plan_id Hmint [p Hp].
    unfold mint_vouchers in Hmint. destruct (plans db !! vc_plan_id d); [|done].
    case_bool_decide; [done|].
    destruct (insert_keyed _ _) as [vs'|] eqn:Hins; [|done].
    match type of Hmint with
    | respond ?e ?n ?k ?r ?dbc = _ =>
        destruct (respond_db e n k r dbc) as [rs Hrs];
        destruct (respond_result e n k r dbc) as [Hok|[Herr _]];
        rewrite Hmint in *; simpl in Hrs; [|done]
    end.
    simpl in Hok. injection Hok as ->.
    unfold get_plan_vouchers. rewrite Hrs. simpl. rewrite Hp.
    eexists _, _. split; [done|]. split; [done|].
    rewrite (insert_keyed_to_list _ _ _ Hins), filter_app.
    apply Permutation_app_head.
    destruct (mint_loop_spec env (users db) d (vc_member_user_ids d) 0)
      as (_ & _ & _ & Hrows).
    case_bool_decide as Hplan.
    + rewrite filter_all; [done|].
      eapply Forall_impl; [exact Hrows|]. intros v (Hv & _). by rewrite Hplan.
    + rewrite filter_none; [done|].
      eapply Forall_impl; [exact Hrows|]. intros v (Hv & _) Hv'.
      apply Hplan. by rewrite <- Hv', Hv.
  - intros env state_key u d db ms db' plan_id Hcreate [p Hp].
    unfold create_mandates in Hcreate. destruct (plans db !! mc_plan_id d); [|done].
    case_bool_decide; [done|].
    destruct (insert_keyed _ _) as [ms'|] eqn:Hins; [|done].
    match type of Hcreate with
    | respond ?e ?n ?k ?r ?dbc = _ =>
        destruct (respond_db e n k r dbc) as [rs Hrs];
        destruct (respond_result e n k r dbc) as [Hok|[Herr _]];
        rewrite Hcreate in *; simpl in Hrs; [|done]
    end.
    simpl in Hok. injection Hok as ->.
    unfold get_plan_mandates. rewrite Hrs. simpl. rewrite Hp.
    eexists _, _. split; [done|]. split; [done|].
    rewrite (insert_keyed_to_list _ _ _ Hins), filter_app.
    apply Permutation_app_head.
    destruct (create_loop_spec env (users db) d (mc_member_user_ids d) 0)
      as (_ & _ & _ & Hrows).
    case_bool_decide as Hplan.
    + rewrite filter_all; [done|].
      eapply Forall_impl; [exact Hrows|]. intros m (Hm & _). by rewrite Hplan.
    + rewrite filter_none; [done|].
      eapply Forall_impl; [exact Hrows|]. intros m (Hm & _) Hm'.
      apply Hplan. by rewrite <- Hm', Hm.
Qed.

Lemma listing_after_mint_and_create_witness :
  ∃ after,
    get_plan_vouchers minted_db "plan-demo-1" = Ok after
    ∧ after ≡ₚ mint_loop (demo_env "voucher-" 1000 true) (users seeded_db)
                 (demo_mint ["user-1"; "user-2"; "user-3"])
                 ["user-1"; "user-2"; "user-3"] 0.
Proof.
  destruct (proj1 listing_after_mint_and_create
              (demo_env "voucher-" 1000 true) None "user-1"
              (demo_mint ["user-1"; "user-2"; "user-3"]) seeded_db
              (mint_loop (demo_env "voucher-" 1000 true) (users seeded_db)
                 (demo_mint ["user-1"; "user-2"; "user-3"])
                 ["user-1"; "user-2"; "user-3"] 0)
              minted_db "plan-demo-1")
    as (before & after & Hbefore & Hafter & Hperm).
  - vm_compute. reflexivity.
  - by eexists.
  - exists after. split; [exact Hafter|].
    vm_compute in Hbefore. injection Hbefore as <-. exact Hperm.
Defined.

(** ** From a payment intent to its confirmation *)




(** ** The balances of all accounts *)

Lemma sum_fmap_add {A} (f g : A → Z) (l : list A) :
  foldr Z.add 0 ((λ a, f a + g a) <$> l)
  = foldr Z.add 0 (f <$> l) + foldr Z.add 0 (g <$> l).
Proof.
  induction l as [|a l IH]; [done|]. rewrite !fmap_cons. cbn [foldr].
  rewrite IH. lia.
Qed.

Lemma sum_fmap_sub {A} (f g : A → Z) (l : list A) :
  foldr Z.add 0 ((λ a, f a - g a) <$> l)
  = foldr Z.add 0 (f <$> l) - foldr Z.add 0 (g <$> l).
Proof.
  induction l as [|a l IH]; [done|]. rewrite !fmap_cons. cbn [foldr].
  rewrite IH. lia.
Qed.

Lemma sum_fmap_zero {A} (l : list A) :
  foldr Z.add 0 ((λ _, 0) <$> l) = 0.
Proof.
  induction l as [|a l IH]; [done|]. rewrite fmap_cons. cbn [foldr].
  by rewrite IH.
Qed.

Lemma sum_fmap_indicator (x : string) (c : Z) (l : list string) :
  NoDup l → x ∈ l →
  foldr Z.add 0 ((λ a, if decide (x = a) then c else 0) <$> l) = c.
Proof.
  induction 1 as [|a l Ha Hnd IH]; intros Hx; [by apply elem_of_nil in Hx|].
  rewrite fmap_cons. cbn [foldr]. destruct (decide (x = a)) as [->|Hne].
  - rewrite (list_fmap_ext _ (λ _, 0) l); [rewrite sum_fmap_zero; lia|].
    intros i y Hy. simpl. rewrite decide_False; [done|]. intros ->.
    apply Ha. by eapply list_elem_of_lookup_2.
  - apply elem_of_cons in Hx as [?|Hx]; [done|]. rewrite IH by done. lia.
Qed.

(** Every entry counts towards one account. *)
Lemma total_by_account leg (es : list LedgerEntry) (accounts : list string) :
  NoDup accounts → Forall (λ e, le_account e ∈ accounts) es →
  foldr Z.add 0
    ((λ a, total leg (filter (λ e, le_account e = a) es)) <$> accounts)
  = total leg es.
Proof.
  intros Hnd. induction 1 as [|e es He Hes IH].
  - apply sum_fmap_zero.
  - rewrite (list_fmap_ext _
               (λ a, (if decide (le_account e = a) then total leg [e] else 0)
                     + total leg (filter (λ e, le_account e = a) es))
               accounts).
    + rewrite sum_fmap_add, sum_fmap_indicator, IH by done.
      by rewrite <- total_app.
    + intros i a Ha. simpl. rewrite filter_cons.
      destruct (decide (le_account e = a)); [|done].
      by rewrite <- total_app.
Qed.

(** X16. Money is conserved: from a database whose ledger balances, after
    any sequence of requests the balances [get_account_balance] gives for
    the accounts of the ledger add up to zero. *)
Theorem account_balances_sum_to_zero (db : DB) (reqs : list (Env * Request))
    (accounts : list string) :
  verify_ledger_balance db = true →
  NoDup accounts →
  Forall (λ e, le_account e ∈ accounts) (ledger_entries (serve reqs db)) →
  foldr Z.add 0 (get_account_balance (serve reqs db) <$> accounts) = 0.
Proof.
  intros Hb Hnd Hall. apply verify_ledger_balance_spec in Hb.
  apply (serve_balanced reqs) in Hb. unfold balanced in Hb.
  rewrite (list_fmap_ext _
             (λ a, total "credit"
                     (filter (λ e, le_account e = a) (ledger_entries (serve reqs db)))
                   - total "debit"
                       (filter (λ e, le_account e = a) (ledger_entries (serve reqs db))))
             accounts).
  - rewrite sum_fmap_sub, !total_by_account by done. lia.
  - intros i a Ha. unfold get_account_balance. by rewrite !or_zero_sql_sum.
Qed.

Lemma account_balances_sum_to_zero_witness :
  let db' := serve demo_payment seeded_db in
  get_account_balance db' "plan_plan-demo-1"
  + (get_account_balance db' "merchant_merchant-campus-1-0" + 0) = 0
  ∧ get_account_balance db' "merchant_merchant-campus-1-0" = 15000.
Proof.
  intros db'. split; [|vm_compute; reflexivity].
  apply (account_balances_sum_to_zero seeded_db demo_payment
           ["plan_plan-demo-1"; "merchant_merchant-campus-1-0"]).
  - reflexivity.
  - compute_done.
  - compute_done.
Defined.
